(** * VQE dashboard: the run controller, sample generator and convergence tracker

    A shallow embedding of the logical core of [vqe_simulator_dashboard.py]
    (class [VQEDashboard]): [generate_new_data_point], [check_convergence],
    [start_data_generation] and the reset performed by [button_click].

    Modelling choices.
    - Energies are Python floats in the source; they are modelled as real
      numbers ([R]), i.e. with exact arithmetic.  Statements that bound an
      energy are given with a margin far above the rounding of the floats.
    - Every call of [np.random.random()] is an input of the model: one tick
      consumes three draws, in the order normal, hybrid, zne.
    - The Python exceptions the core could raise ([IndexError] for [l[-1]] on
      an empty list, [ValueError] for [max]/[min] of an empty list) are the
      [Raise] results of a small error monad.
    - The Tk timer queue ([root.after(2000, self.start_data_generation)]) is
      a counter of pending callbacks.
    - Widgets, chart drawing and the status bar are not modelled; the calls of
      [mark_convergence] made by a tick are returned as a list. *)

From Stdlib Require Import Reals Lra ZArith List Lia String FunctionalExtensionality.
From stdpp Require Import base decidable countable gmap sets.
Import ListNotations.

Local Open Scope R_scope.
Set Warnings "-clear-no-such-hyp".

(** ** Data model *)

(** The three keys of [self.data_storage]. *)
Inductive method : Set :=
  | normal_vqe
  | vqe_uccsd_hybrid
  | vqe_uccsd_hybrid_zne.

#[global] Instance method_eq_dec : EqDecision method.
Proof. solve_decision. Defined.

Definition method_code (m : method) : nat :=
  match m with
  | normal_vqe => 0
  | vqe_uccsd_hybrid => 1
  | vqe_uccsd_hybrid_zne => 2
  end.

Definition method_of_code (n : nat) : option method :=
  match n with
  | O => Some normal_vqe
  | S O => Some vqe_uccsd_hybrid
  | S (S O) => Some vqe_uccsd_hybrid_zne
  | _ => None
  end.

#[global] Instance method_countable : Countable method.
Proof.
  apply (inj_countable method_code method_of_code).
  intros []; reflexivity.
Defined.

(** Insertion order of the dictionary, which is the order of every
    [for method in self.data_storage] loop. *)
Definition methods : list method :=
  [normal_vqe; vqe_uccsd_hybrid; vqe_uccsd_hybrid_zne].

(** [{'iterations': [], 'energy': []}] *)
Record series : Type := mkSeries {
  iterations : list Z;
  energy : list R
}.

Record dashboard : Type := mkDashboard {
  data_storage : method -> series;
  current_iteration : Z;
  simulation_stopped : bool;
  converged_methods : gset method
}.

(** Constants set once in [__init__]. *)
Definition convergence_threshold : R := 0.001.
Definition convergence_window : nat := 5.

(** The state built by [__init__] before its call of [start_data_generation]. *)
Definition initial : dashboard :=
  {| data_storage := fun _ => mkSeries [] [];
     current_iteration := 0%Z;
     simulation_stopped := false;
     converged_methods := ∅ |}.

(** The three successive results of [np.random.random()] in one tick. *)
Record draws : Type := mkDraws {
  u_normal : R;
  u_hybrid : R;
  u_zne : R
}.

Definition draw (u : draws) (m : method) : R :=
  match m with
  | normal_vqe => u_normal u
  | vqe_uccsd_hybrid => u_hybrid u
  | vqe_uccsd_hybrid_zne => u_zne u
  end.

(** [np.random.random()] returns a value of the half-open interval [0, 1). *)
Definition unit_draw (x : R) : Prop := 0 <= x < 1.

Definition valid_draws (u : draws) : Prop :=
  unit_draw (u_normal u) /\ unit_draw (u_hybrid u) /\ unit_draw (u_zne u).

(** ** Python exceptions as an error monad *)

Inductive exn : Set := IndexError | ValueError.

Inductive result (A : Type) : Type :=
  | Ok (a : A)
  | Raise (e : exn).
Arguments Ok {A} a.
Arguments Raise {A} e.

#[global] Instance result_ret : MRet result := fun A a => Ok a.

#[global] Instance result_bind : MBind result := fun A B k r =>
  match r with
  | Ok a => k a
  | Raise e => Raise e
  end.

(** ** Python list primitives *)

(** [l[-1]] *)
Definition py_last {A : Type} (l : list A) : result A :=
  match rev l with
  | [] => Raise IndexError
  | x :: _ => Ok x
  end.

(** [l[-n:]]: the last [n] elements, the whole list when it is shorter
    (and, as in Python, the whole list for [n = 0]). *)
Definition py_suffix {A : Type} (n : nat) (l : list A) : list A :=
  match n with
  | O => l
  | _ => skipn (length l - n) l
  end.

(** [max(l)]: the scan keeps the first maximal item. *)
Definition py_max (l : list R) : result R :=
  match l with
  | [] => Raise ValueError
  | x :: xs => Ok (fold_left (fun acc y => if Rlt_dec acc y then y else acc) xs x)
  end.

(** [min(l)] *)
Definition py_min (l : list R) : result R :=
  match l with
  | [] => Raise ValueError
  | x :: xs => Ok (fold_left (fun acc y => if Rlt_dec y acc then y else acc) xs x)
  end.

(** ** Sample generation (lines 508-524) *)

(** The branch of a method that has not converged. *)
Definition fresh_energy (m : method) (iteration : Z) (u : R) : R :=
  match m with
  | normal_vqe =>
      -0.8 - 0.4 * (1 - exp (- IZR iteration / 20)) + 0.08 * u
  | vqe_uccsd_hybrid =>
      -1.0 - 0.4 * (1 - exp (- IZR iteration / 10)) + 0.03 * u
  | vqe_uccsd_hybrid_zne =>
      -1.1 - 0.5 * (1 - exp (- IZR iteration / 8)) + 0.02 * u
  end.

(** The branch of a converged method: the literal factor of the jitter. *)
Definition jitter (m : method) : R :=
  match m with
  | normal_vqe => 0.001
  | vqe_uccsd_hybrid => 0.001
  | vqe_uccsd_hybrid_zne => 0.0005
  end.

Definition held_energy (m : method) (energies : list R) (u : R) : result R :=
  prev ← py_last energies ;
  Ok (prev + jitter m * (u - 0.5)).

Definition next_energy (s : dashboard) (m : method) (u : R) : result R :=
  if decide (m ∈ converged_methods s)
  then held_energy m (energy (data_storage s m)) u
  else Ok (fresh_energy m (current_iteration s) u).

(** The three energies of a tick, in the order of the source. *)
Definition sample (s : dashboard) (u : draws) : result (method -> R) :=
  normal_energy ← next_energy s normal_vqe (u_normal u) ;
  hybrid_energy ← next_energy s vqe_uccsd_hybrid (u_hybrid u) ;
  zne_energy ← next_energy s vqe_uccsd_hybrid_zne (u_zne u) ;
  Ok (fun m => match m with
               | normal_vqe => normal_energy
               | vqe_uccsd_hybrid => hybrid_energy
               | vqe_uccsd_hybrid_zne => zne_energy
               end).

(** ** Storing the samples (lines 527-534) *)

Definition append_point (iteration : Z) (e : R) (d : series) : series :=
  {| iterations := iterations d ++ [iteration];
     energy := energy d ++ [e] |}.

Definition store (st : method -> series) (iteration : Z) (es : method -> R)
  : method -> series :=
  fun m => append_point iteration (es m) (st m).

(** ** Convergence check (lines 565-582) *)

(** The body of the loop for one method.  The accumulator is the set
    [self.converged_methods] and the calls of [mark_convergence] made so far. *)
Definition check_method (st : method -> series)
    (acc : gset method * list method) (method_name : method)
  : result (gset method * list method) :=
  if decide (method_name ∈ acc.1) then Ok acc
  else
    let energies := energy (st method_name) in
    if (convergence_window <=? length energies)%nat then
      let recent_energies := py_suffix convergence_window energies in
      hi ← py_max recent_energies ;
      lo ← py_min recent_energies ;
      let energy_range := hi - lo in
      if Rlt_dec energy_range convergence_threshold
      then Ok ({[method_name]} ∪ acc.1, acc.2 ++ [method_name])
      else Ok acc
    else Ok acc.

Fixpoint check_loop (st : method -> series) (ms : list method)
    (acc : gset method * list method) : result (gset method * list method) :=
  match ms with
  | [] => Ok acc
  | m :: ms' => acc' ← check_method st acc m ; check_loop st ms' acc'
  end.

Definition check_convergence (st : method -> series) (conv : gset method)
  : result (gset method * list method) :=
  check_loop st methods (conv, []).

(** ** One tick (lines 502-563) *)

(** [d['iterations'][-50:]] and [d['energy'][-50:]] *)
Definition keep_last_50 (d : series) : series :=
  {| iterations := py_suffix 50 (iterations d);
     energy := py_suffix 50 (energy d) |}.

Definition generate_new_data_point (s : dashboard) (u : draws)
  : result (dashboard * list method) :=
  let iteration := current_iteration s in
  es ← sample s u ;
  let st := store (data_storage s) iteration es in
  '(conv, marked) ← check_convergence st (converged_methods s) ;
  let converged_count := size conv in
  let stopped :=
    if (converged_count =? 3)%nat then true else simulation_stopped s in
  let st' :=
    if (50 <? length (iterations (st normal_vqe)))%nat
    then (fun m => keep_last_50 (st m))
    else st in
  Ok ({| data_storage := st';
         current_iteration := iteration + 1;
         simulation_stopped := stopped;
         converged_methods := conv |}, marked).

(** ** The timer callback (lines 488-500) *)

Record outcome : Type := mkOutcome {
  after : dashboard;
  marks : list method;     (* calls of [mark_convergence] *)
  rescheduled : bool       (* [self.root.after(2000, self.start_data_generation)] *)
}.

Definition set_stopped (s : dashboard) : dashboard :=
  {| data_storage := data_storage s;
     current_iteration := current_iteration s;
     simulation_stopped := true;
     converged_methods := converged_methods s |}.

Definition start_data_generation (s : dashboard) (u : draws) : result outcome :=
  if simulation_stopped s || (3 <=? size (converged_methods s))%nat then
    Ok {| after := if (3 <=? size (converged_methods s))%nat
                   then set_stopped s else s;
          marks := [];
          rescheduled := false |}
  else
    '(s', marked) ← generate_new_data_point s u ;
    Ok {| after := s';
          marks := marked;
          rescheduled := negb (simulation_stopped s') |}.

(** ** The button (lines 155-174) *)

Definition button_click (s : dashboard) (button_text : string) : dashboard :=
  if String.eqb button_text "Run Simulation" then
    {| data_storage := fun _ => mkSeries [] [];
       current_iteration := 0%Z;
       simulation_stopped := false;
       converged_methods := ∅ |}
  else s.

(** ** The Tk event loop around the dashboard *)

(** [pending] counts the queued [after] callbacks of [start_data_generation].
    The callback queued by [button_click] only rewrites the status bar and is
    not counted. *)
Record app : Type := mkApp {
  dash : dashboard;
  pending : nat
}.

Definition requeue (o : outcome) : nat := if rescheduled o then 1%nat else 0%nat.

(** [VQEDashboard.__init__]: the first call of [start_data_generation] is
    direct, not through the timer. *)
Definition launch (u : draws) : result app :=
  o ← start_data_generation initial u ;
  Ok {| dash := after o; pending := requeue o |}.

(** The event loop runs one queued callback. *)
Definition timer_fires (a : app) (u : draws) : result app :=
  o ← start_data_generation (dash a) u ;
  Ok {| dash := after o; pending := (pending a - 1 + requeue o)%nat |}.

Definition click (a : app) (button_text : string) : app :=
  {| dash := button_click (dash a) button_text; pending := pending a |}.

(** ** Runs and the samples they append *)

(** Per method, every (iteration, energy) pair appended since the last reset;
    a ghost value used to state what the series retain. *)
Definition history : Type := method -> list (Z * R).

Definition no_history : history := fun _ => [].

(** What one call of [start_data_generation] appends to the series: nothing
    when it returns early, otherwise the pair built by lines 504-534. *)
Definition appended (s : dashboard) (u : draws) (h : history) : result history :=
  if simulation_stopped s || (3 <=? size (converged_methods s))%nat then Ok h
  else
    es ← sample s u ;
    Ok (fun m => h m ++ [(current_iteration s, es m)]).

Definition reset_history (button_text : string) (h : history) : history :=
  if String.eqb button_text "Run Simulation" then no_history else h.

(** One event of the event loop: a queued callback runs, or the button is
    pressed. *)
Inductive step : app -> history -> app -> history -> Prop :=
  | step_timer a h u a' h' :
      (0 < pending a)%nat ->
      valid_draws u ->
      timer_fires a u = Ok a' ->
      appended (dash a) u h = Ok h' ->
      step a h a' h'
  | step_click a h button_text :
      step a h (click a button_text) (reset_history button_text h).

(** The states of the application, with the history of the current run. *)
Inductive run : app -> history -> Prop :=
  | run_launch u a h :
      valid_draws u ->
      launch u = Ok a ->
      appended initial u no_history = Ok h ->
      run a h
  | run_step a h a' h' :
      run a h ->
      step a h a' h' ->
      run a' h'.

(** Any number of further events. *)
Inductive steps : app -> history -> app -> history -> Prop :=
  | steps_refl a h : steps a h a h
  | steps_step a h a1 h1 a2 h2 :
      steps a h a1 h1 ->
      step a1 h1 a2 h2 ->
      steps a h a2 h2.

(** Consecutive timer callbacks on the dashboard alone, with every call of
    [mark_convergence] they make. *)
Fixpoint ticks (s : dashboard) (us : list draws) : result (dashboard * list method) :=
  match us with
  | [] => Ok (s, [])
  | u :: us' =>
      o ← start_data_generation s u ;
      '(s', marked) ← ticks (after o) us' ;
      Ok (s', marks o ++ marked)
  end.

(** The constants of the curve as the specification tabulates them:
    (base, amplitude, decay, noise) per method. *)
Definition base (m : method) : R :=
  match m with
  | normal_vqe => -0.8
  | vqe_uccsd_hybrid => -1.0
  | vqe_uccsd_hybrid_zne => -1.1
  end.

Definition amplitude (m : method) : R :=
  match m with
  | normal_vqe => 0.4
  | vqe_uccsd_hybrid => 0.4
  | vqe_uccsd_hybrid_zne => 0.5
  end.

Definition decay (m : method) : R :=
  match m with
  | normal_vqe => 20
  | vqe_uccsd_hybrid => 10
  | vqe_uccsd_hybrid_zne => 8
  end.

Definition noise (m : method) : R :=
  match m with
  | normal_vqe => 0.08
  | vqe_uccsd_hybrid => 0.03
  | vqe_uccsd_hybrid_zne => 0.02
  end.

(** ** Concrete inputs *)

Definition zero_draws : draws := mkDraws 0 0 0.

(** The application after [__init__] when the three draws are 0. *)
Definition first_app : app :=
  {| dash := {| data_storage := fun m => mkSeries [0%Z] [fresh_energy m 0 0];
                current_iteration := 1;
                simulation_stopped := false;
                converged_methods := ∅ |};
     pending := 1 |}.

Definition first_history : history := fun m => [(0%Z, fresh_energy m 0 0)].

(** ** Scripted runs

    [E m i] is the energy of method [m] at iteration [i] and [C k] the
    convergence set after [k] ticks.  The state, the application and the
    history after [k] ticks of such a run, as long as nothing has been
    truncated ([k <= 50]): *)
Definition script_state (E : method -> nat -> R) (C : nat -> gset method)
    (k : nat) : dashboard :=
  {| data_storage := fun m =>
       mkSeries (map Z.of_nat (seq 0 k)) (map (E m) (seq 0 k));
     current_iteration := Z.of_nat k;
     simulation_stopped := (size (C k) =? 3)%nat;
     converged_methods := C k |}.

Definition script_app (E : method -> nat -> R) (C : nat -> gset method)
    (k : nat) : app :=
  {| dash := script_state E C k;
     pending := if (size (C k) =? 3)%nat then 0%nat else 1%nat |}.

Definition script_history (E : method -> nat -> R) (k : nat) : history :=
  fun m => combine (map Z.of_nat (seq 0 k)) (map (E m) (seq 0 k)).

(** ** Two scripted runs

    Draws that alternate between 0.5 (even iterations) and 0, and the draw
    that brings the curve of [m] at iteration [i] back to its value at
    iteration [a] with draw 0. *)
Definition alt (j : nat) : R := if Nat.even j then 0.5 else 0.

Definition level_draw (m : method) (a i : nat) : R :=
  amplitude m / noise m *
  (exp (- IZR (Z.of_nat a) / decay m) - exp (- IZR (Z.of_nat i) / decay m)).

(** A run that completes: the draws alternate up to iteration 40 and level
    the three curves on iterations 41..45, so that the three methods converge
    together in the tick of iteration 45. *)
Definition full_draw (m : method) (i : nat) : R :=
  if (i <? 41)%nat then alt i else level_draw m 41 i.

Definition full_draws (i : nat) : draws :=
  mkDraws (full_draw normal_vqe i)
          (full_draw vqe_uccsd_hybrid i)
          (full_draw vqe_uccsd_hybrid_zne i).

Definition full_energy (m : method) (i : nat) : R :=
  fresh_energy m (Z.of_nat i) (full_draw m i).

Definition full_converged (k : nat) : gset method :=
  if (k <? 46)%nat then ∅ else list_to_set methods.

Definition completed_app : app := script_app full_energy full_converged 46.

Definition completed_history : history := script_history full_energy 46.

(** A run in which normal_vqe converges in the tick of iteration 4 (its curve
    is levelled at -0.8 from the start) while the two other methods keep
    alternating; from iteration 5 on the draw of normal_vqe is 0. *)
Definition drift_draws (i : nat) : draws :=
  mkDraws (if (i <? 5)%nat then level_draw normal_vqe 0 i else 0)
          (alt i)
          (alt i).

Definition drift_energy (m : method) (i : nat) : R :=
  match m with
  | normal_vqe =>
      if (i <? 5)%nat then -0.8 else -0.8 - 0.0005 * INR (i - 4)
  | _ => fresh_energy m (Z.of_nat i) (alt i)
  end.

Definition drift_converged (k : nat) : gset method :=
  if (k <? 5)%nat then ∅ else {[normal_vqe]}.

Definition drift_state (k : nat) : dashboard :=
  script_state drift_energy drift_converged k.

Definition drift_app (k : nat) : app :=
  script_app drift_energy drift_converged k.

Definition drift_history (k : nat) : history :=
  script_history drift_energy k.

(** ** Specification vocabulary *)

Definition is_max (hi : R) (l : list R) : Prop :=
  In hi l /\ forall x, In x l -> x <= hi.

Definition is_min (lo : R) (l : list R) : Prop :=
  In lo l /\ forall x, In x l -> lo <= x.

(** The last five energies span less than the threshold. *)
Definition window_converged (energies : list R) : Prop :=
  (5 <= length energies)%nat /\
  exists hi lo,
    is_max hi (py_suffix 5 energies) /\
    is_min lo (py_suffix 5 energies) /\
    hi - lo < 0.001.

(** The pairs of a series. *)
Definition points (d : series) : list (Z * R) :=
  combine (iterations d) (energy d).

(** ** Invariants

    The series after the truncation of lines 559-563, the invariant of the
    dashboard, its relation to the history of the run, and the invariant of
    the application. *)
Definition truncated (st : method -> series) : method -> series :=
  if (50 <? length (iterations (st normal_vqe)))%nat
  then (fun m => keep_last_50 (st m))
  else st.


Record consistent (s : dashboard) : Prop := mkConsistent {
  cons_pairs : forall m,
    length (iterations (data_storage s m)) = length (energy (data_storage s m));
  cons_same : forall m,
    length (energy (data_storage s m)) = length (energy (data_storage s normal_vqe));
  cons_cap : (length (energy (data_storage s normal_vqe)) <= 50)%nat;
  cons_conv : forall m,
    m ∈ converged_methods s -> (5 <= length (energy (data_storage s m)))%nat;
  cons_stop :
    simulation_stopped s = true <-> size (converged_methods s) = 3%nat
}.

Record tracked (s : dashboard) (h : history) : Prop := mkTracked {
  tr_points : forall m, points (data_storage s m) = py_suffix 50 (h m);
  tr_iters : forall m, map fst (h m) = map Z.of_nat (seq 0 (length (h m)));
  tr_count : forall m, current_iteration s = Z.of_nat (length (h m))
}.

Record run_inv (a : app) (h : history) : Prop := mkRunInv {
  ri_consistent : consistent (dash a);
  ri_tracked : tracked (dash a) h;
  ri_pending : (pending a <= 1)%nat;
  ri_stopped : simulation_stopped (dash a) = true -> pending a = 0%nat
}.

(** Every pair of a history is a sample of the unconverged branch of [m],
    for some draw in [0, 1). *)
Definition fresh_pairs (m : method) (l : list (Z * R)) : Prop :=
  Forall (fun p => exists u, unit_draw u /\ p.2 = fresh_energy m p.1 u) l.

(** ** The charts (lines 584-707)

    The three chart panels.  [create_*_chart] stores [ax], [line] and
    [scatter] on the chart frame together (lines 385-388) and [canvas] last
    (line 393), after the calls that may fail; [has_ax] and [has_canvas]
    record which of them exist.  [panel4] is the summary panel: it has no
    [chart_frame], so that [self.panel4.chart_frame] raises [AttributeError],
    which the functions below catch. *)
Record chart : Type := mkChart {
  has_ax : bool;
  has_canvas : bool;
  title : string;
  line_data : list Z * list R;
  scatter_offsets : list (Z * R);
  xlim : Z * Z;
  ylim : R * R
}.

Record panels : Type := mkPanels {
  panel1 : chart;
  panel2 : chart;
  panel3 : chart
}.

(** The chart a tick redraws for a method (lines 636-704). *)
Definition panel_of (p : panels) (m : method) : chart :=
  match m with
  | normal_vqe => panel1 p
  | vqe_uccsd_hybrid => panel2 p
  | vqe_uccsd_hybrid_zne => panel3 p
  end.

(** A chart as a successful [create_*_chart] leaves it. *)
Definition new_chart : chart :=
  {| has_ax := true; has_canvas := true; title := "";
     line_data := ([], []); scatter_offsets := [];
     xlim := (0%Z, 50%Z); ylim := (-2.0, 0.0) |}.

Definition new_panels : panels := mkPanels new_chart new_chart new_chart.

(** The keys of [self.data_storage], as [check_convergence] passes them to
    [mark_convergence]. *)
Definition method_key (m : method) : string :=
  match m with
  | normal_vqe => "normal_vqe"
  | vqe_uccsd_hybrid => "vqe_uccsd_hybrid"
  | vqe_uccsd_hybrid_zne => "vqe_uccsd_hybrid_zne"
  end.

Definition set_title (c : chart) (t : string) : chart :=
  {| has_ax := has_ax c; has_canvas := has_canvas c; title := t;
     line_data := line_data c; scatter_offsets := scatter_offsets c;
     xlim := xlim c; ylim := ylim c |}.

Definition normal_converged_title : string := "Normal VQE - CONVERGED âœ“".
Definition uccsd_converged_title : string := "VQE + UCCSD - CONVERGED âœ“".
Definition hybrid_converged_title : string := "VQE + UCCSD + Hybrid - CONVERGED âœ“".

(** [mark_convergence] (lines 584-609).  The title is set before
    [canvas.draw()], so it stays set when that call fails.  For the key
    vqe_uccsd_hybrid_zne the last branch reads [self.panel4.chart_frame] and
    raises; the handler prints and no title changes. *)
Definition mark_convergence (p : panels) (method_name : string) : panels :=
  if String.eqb method_name "normal_vqe" && has_ax (panel1 p) then
    {| panel1 := set_title (panel1 p) normal_converged_title;
       panel2 := panel2 p; panel3 := panel3 p |}
  else if String.eqb method_name "vqe_uccsd" && has_ax (panel2 p) then
    {| panel1 := panel1 p;
       panel2 := set_title (panel2 p) uccsd_converged_title;
       panel3 := panel3 p |}
  else if String.eqb method_name "vqe_uccsd_hybrid" && has_ax (panel3 p) then
    {| panel1 := panel1 p; panel2 := panel2 p;
       panel3 := set_title (panel3 p) hybrid_converged_title |}
  else p.

(** The calls of [mark_convergence] made by [check_convergence], in order. *)
Definition apply_marks (p : panels) (marked : list method) : panels :=
  fold_left (fun q m => mark_convergence q (method_key m)) marked p.

(** One block of [reset_chart_titles]: the chart after it, and whether
    control reaches the next block ([canvas.draw()] did not raise). *)
Definition reset_title (c : chart) : chart * bool :=
  if has_ax c then (set_title c "", has_canvas c) else (c, true).

(** [reset_chart_titles] (lines 611-631): the blocks run in order inside one
    [try]; the first exception skips the rest. *)
Definition reset_chart_titles (p : panels) : panels :=
  let '(c1, ok1) := reset_title (panel1 p) in
  if negb ok1 then {| panel1 := c1; panel2 := panel2 p; panel3 := panel3 p |}
  else
    let '(c2, ok2) := reset_title (panel2 p) in
    if negb ok2 then {| panel1 := c1; panel2 := c2; panel3 := panel3 p |}
    else
      let '(c3, _) := reset_title (panel3 p) in
      {| panel1 := c1; panel2 := c2; panel3 := c3 |}.

(** [l[::n]] for a positive step [n]: the items at positions 0, n, 2n, ...;
    [k] counts the items to skip before the next one kept. *)
Fixpoint py_step_from {A : Type} (n k : nat) (l : list A) : list A :=
  match l with
  | [] => []
  | x :: t =>
      match k with
      | O => x :: py_step_from n (n - 1) t
      | S k' => py_step_from n k' t
      end
  end.

Definition py_step {A : Type} (n : nat) (l : list A) : list A :=
  py_step_from n 0 l.

(** The offsets of the scatter plot (lines 644-646). *)
Definition scatter_points (d : series) : list (Z * R) :=
  let scatter_iterations :=
    if (5 <=? length (iterations d))%nat then py_step 5 (iterations d)
    else iterations d in
  let scatter_energies :=
    if (5 <=? length (energy d))%nat then py_step 5 (energy d)
    else energy d in
  combine scatter_iterations scatter_energies.

(** [max(a, b)] on floats *)
Definition py_max2 (a b : R) : R := if Rlt_dec a b then b else a.

(** Lines 649-650: [if iterations: set_xlim(0, max(max(iterations) + 5, 50))] *)
Definition fit_xlim (its : list Z) (old : Z * Z) : Z * Z :=
  match its with
  | [] => old
  | i :: rest => (0%Z, Z.max (fold_left Z.max rest i + 5) 50)
  end.

(** Lines 651-656: [if energies: ...], with a margin of 10 per cent of the
    range and at least 0.1. *)
Definition fit_ylim (energies : list R) (old : R * R) : R * R :=
  match py_min energies, py_max energies with
  | Ok min_energy, Ok max_energy =>
      let energy_range := max_energy - min_energy in
      let margin := py_max2 0.1 (energy_range * 0.1) in
      (min_energy - margin, max_energy + margin)
  | _, _ => old
  end.

(** One block of [update_charts]: the chart after it, and whether control
    reaches the next block.  The series is taken to hold as many iterations
    as energies, as it does in every state of a run. *)
Definition update_panel (c : chart) (d : series) : chart * bool :=
  if has_ax c then
    ({| has_ax := has_ax c; has_canvas := has_canvas c; title := title c;
        line_data := (iterations d, energy d);
        scatter_offsets :=
          if (0 <? length (iterations d))%nat then scatter_points d
          else scatter_offsets c;
        xlim := fit_xlim (iterations d) (xlim c);
        ylim := fit_ylim (energy d) (ylim c) |},
     has_canvas c)
  else (c, true).

(** [update_charts] (lines 633-707): one [try] around the three blocks. *)
Definition update_charts (st : method -> series) (p : panels) : panels :=
  let '(c1, ok1) := update_panel (panel1 p) (st normal_vqe) in
  if negb ok1 then {| panel1 := c1; panel2 := panel2 p; panel3 := panel3 p |}
  else
    let '(c2, ok2) := update_panel (panel2 p) (st vqe_uccsd_hybrid) in
    if negb ok2 then {| panel1 := c1; panel2 := c2; panel3 := panel3 p |}
    else
      let '(c3, _) := update_panel (panel3 p) (st vqe_uccsd_hybrid_zne) in
      {| panel1 := c1; panel2 := c2; panel3 := c3 |}.

(** What [generate_new_data_point] does to the charts: [check_convergence]
    marks (line 537), then [update_charts] draws the series as they are at
    line 540, that is, before the truncation of lines 559-563. *)
Definition generate_charts (s : dashboard) (u : draws) (p : panels)
  : result panels :=
  es ← sample s u ;
  let st := store (data_storage s) (current_iteration s) es in
  '(conv, marked) ← check_convergence st (converged_methods s) ;
  Ok (update_charts st (apply_marks p marked)).

(** A run of 50 ticks in which no method converges: every draw alternates
    between 0.5 and 0. *)
Definition alt_draws (i : nat) : draws := mkDraws (alt i) (alt i) (alt i).

Definition alt_energy (m : method) (i : nat) : R :=
  fresh_energy m (Z.of_nat i) (alt i).

Definition steady_app : app := script_app alt_energy (fun _ => ∅) 50.

Definition steady_history : history := script_history alt_energy 50.

(** A chart whose canvas could not be created. *)
Definition broken_chart : chart :=
  {| has_ax := true; has_canvas := false; title := "";
     line_data := ([], []); scatter_offsets := [];
     xlim := (0%Z, 50%Z); ylim := (-2.0, 0.0) |}.

(** A chart created without failure. *)
Definition built (c : chart) : Prop := has_ax c = true /\ has_canvas c = true.

(** * Lemmas on the list primitives *)

Lemma py_suffix_length {A : Type} (n : nat) (l : list A) :
  (0 < n)%nat -> length (py_suffix n l) = Nat.min n (length l).
Proof.
  intros Hn. destruct n as [|n]; [lia|].
  unfold py_suffix. rewrite length_skipn. lia.
Qed.

Lemma py_suffix_short {A : Type} (n : nat) (l : list A) :
  (length l <= n)%nat -> py_suffix n l = l.
Proof.
  intros Hl. destruct n as [|n]; [reflexivity|].
  unfold py_suffix. replace (length l - S n)%nat with 0%nat by lia.
  reflexivity.
Qed.

Lemma py_suffix_In {A : Type} (n : nat) (l : list A) (x : A) :
  In x (py_suffix n l) -> In x l.
Proof.
  destruct n as [|n]; [auto|].
  unfold py_suffix. intros Hx.
  rewrite <- (firstn_skipn (length l - S n) l). apply in_or_app. now right.
Qed.

Lemma py_suffix_snoc {A : Type} (n : nat) (l : list A) (x : A) :
  (0 < n)%nat ->
  py_suffix n (py_suffix n l ++ [x]) = py_suffix n (l ++ [x]).
Proof.
  intros Hn. destruct n as [|n]; [lia|].
  unfold py_suffix.
  rewrite !length_app, length_skipn. cbn [length].
  destruct (Nat.le_gt_cases (length l) (S n)) as [Hle|Hgt].
  - replace (length l - S n)%nat with 0%nat by lia. cbn [skipn].
    rewrite Nat.sub_0_r. reflexivity.
  - replace (length l - (length l - S n) + 1 - S n)%nat with 1%nat by lia.
    replace (length l + 1 - S n)%nat with (S (length l - S n)) by lia.
    rewrite (skipn_app (S (length l - S n)) l [x]).
    replace (S (length l - S n) - length l)%nat with 0%nat by lia.
    cbn [skipn].
    rewrite (skipn_app 1 (skipn (length l - S n) l) [x]).
    rewrite length_skipn.
    replace (1 - (length l - (length l - S n)))%nat with 0%nat by lia.
    cbn [skipn]. f_equal.
    rewrite skipn_skipn. f_equal.
Qed.


Lemma py_suffix_combine {A B : Type} (n : nat) (l : list A) (l' : list B) :
  length l = length l' ->
  combine (py_suffix n l) (py_suffix n l') = py_suffix n (combine l l').
Proof.
  intros Hlen. destruct n as [|n]; [reflexivity|].
  unfold py_suffix. rewrite length_combine, <- Hlen, Nat.min_id.
  generalize (length l - S n)%nat as k. clear n.
  intros k. revert l l' Hlen.
  induction k as [|k IH]; intros [|a l] [|b l'] Hlen; cbn; try reflexivity;
    try discriminate.
  apply IH. cbn in Hlen. lia.
Qed.

Lemma py_last_snoc {A : Type} (l : list A) (x : A) : py_last (l ++ [x]) = Ok x.
Proof. unfold py_last. rewrite rev_unit. reflexivity. Qed.

Lemma py_last_nonempty {A : Type} (l : list A) :
  l <> [] -> exists x, py_last l = Ok x.
Proof.
  intros Hl. destruct (exists_last Hl) as [l' [x ->]].
  exists x. apply py_last_snoc.
Qed.

Lemma py_last_suffix {A : Type} (n : nat) (l : list A) :
  (0 < n)%nat -> py_last (py_suffix n l) = py_last l.
Proof.
  intros Hn. destruct l as [|a l] using rev_ind.
  - destruct n; reflexivity.
  - rewrite py_last_snoc. destruct n as [|n]; [lia|].
    unfold py_suffix. rewrite length_app. cbn [length].
    rewrite skipn_app.
    replace (length l + 1 - S n - length l)%nat with 0%nat by lia.
    cbn [skipn]. apply py_last_snoc.
Qed.

(** * Lemmas on [max] and [min] *)

Lemma fold_max_spec (xs : list R) (acc : R) :
  let r := fold_left (fun acc y => if Rlt_dec acc y then y else acc) xs acc in
  (r = acc \/ In r xs) /\ acc <= r /\ forall y, In y xs -> y <= r.
Proof.
  revert acc. induction xs as [|x xs IH]; intros acc; cbn.
  - split; [now left|]. split; [lra|]. intros y [].
  - destruct (IH (if Rlt_dec acc x then x else acc)) as [Hin [Hle Hall]].
    destruct (Rlt_dec acc x) as [Hlt|Hge].
    + split; [|split].
      * destruct Hin as [->|Hin]; [right; now left|right; now right].
      * lra.
      * intros y [<-|Hy]; [exact Hle|now apply Hall].
    + split; [|split].
      * destruct Hin as [->|Hin]; [now left|right; now right].
      * exact Hle.
      * intros y [<-|Hy]; [lra|now apply Hall].
Qed.

Lemma fold_min_spec (xs : list R) (acc : R) :
  let r := fold_left (fun acc y => if Rlt_dec y acc then y else acc) xs acc in
  (r = acc \/ In r xs) /\ r <= acc /\ forall y, In y xs -> r <= y.
Proof.
  revert acc. induction xs as [|x xs IH]; intros acc; cbn.
  - split; [now left|]. split; [lra|]. intros y [].
  - destruct (IH (if Rlt_dec x acc then x else acc)) as [Hin [Hle Hall]].
    destruct (Rlt_dec x acc) as [Hlt|Hge].
    + split; [|split].
      * destruct Hin as [->|Hin]; [right; now left|right; now right].
      * lra.
      * intros y [<-|Hy]; [exact Hle|now apply Hall].
    + split; [|split].
      * destruct Hin as [->|Hin]; [now left|right; now right].
      * exact Hle.
      * intros y [<-|Hy]; [lra|now apply Hall].
Qed.

Lemma py_max_spec (l : list R) :
  l <> [] -> exists hi, py_max l = Ok hi /\ is_max hi l.
Proof.
  destruct l as [|x xs]; [congruence|]. intros _.
  eexists. split; [reflexivity|].
  destruct (fold_max_spec xs x) as [Hin [Hle Hall]]. split.
  - destruct Hin as [->|Hin]; [now left|now right].
  - intros y [<-|Hy]; [exact Hle|now apply Hall].
Qed.

Lemma py_min_spec (l : list R) :
  l <> [] -> exists lo, py_min l = Ok lo /\ is_min lo l.
Proof.
  destruct l as [|x xs]; [congruence|]. intros _.
  eexists. split; [reflexivity|].
  destruct (fold_min_spec xs x) as [Hin [Hle Hall]]. split.
  - destruct Hin as [->|Hin]; [now left|now right].
  - intros y [<-|Hy]; [exact Hle|now apply Hall].
Qed.

Lemma is_max_unique (a b : R) (l : list R) : is_max a l -> is_max b l -> a = b.
Proof.
  intros [Ha Ha'] [Hb Hb']. apply Rle_antisym; auto.
Qed.

Lemma is_min_unique (a b : R) (l : list R) : is_min a l -> is_min b l -> a = b.
Proof.
  intros [Ha Ha'] [Hb Hb']. apply Rle_antisym; auto.
Qed.

Lemma py_suffix_nonempty {A : Type} (n : nat) (l : list A) :
  (0 < n)%nat -> l <> [] -> py_suffix n l <> [].
Proof.
  intros Hn Hl He. apply (f_equal (@length A)) in He.
  rewrite py_suffix_length in He by assumption.
  destruct l; [congruence|]. cbn in He. lia.
Qed.

(** * The convergence check *)

(** One iteration of the loop never raises, and marks the method exactly when
    it is not yet converged and its window has converged. *)
Lemma check_method_spec (st : method -> series)
    (acc : gset method * list method) (m : method) :
  ((m ∉ acc.1) /\ window_converged (energy (st m)) /\
   check_method st acc m = Ok ({[m]} ∪ acc.1, acc.2 ++ [m])) \/
  (~ ((m ∉ acc.1) /\ window_converged (energy (st m))) /\
   check_method st acc m = Ok acc).
Proof.
  unfold check_method.
  destruct (decide (m ∈ acc.1)) as [Hin|Hnin].
  { right. split; [tauto|reflexivity]. }
  unfold convergence_window.
  destruct (Nat.leb_spec 5 (length (energy (st m)))) as [Hlen|Hlen].
  2:{ right. split; [|reflexivity]. intros [_ [Hw _]]. lia. }
  assert (Hne : py_suffix 5 (energy (st m)) <> []).
  { apply py_suffix_nonempty; [lia|].
    destruct (energy (st m)); [cbn in Hlen; lia|congruence]. }
  destruct (py_max_spec _ Hne) as [hi [-> Hhi]].
  destruct (py_min_spec _ Hne) as [lo [-> Hlo]].
  cbn [mbind result_bind]. unfold convergence_threshold.
  destruct (Rlt_dec (hi - lo) 0.001) as [Hlt|Hge].
  - left. split; [assumption|]. split; [|reflexivity].
    split; [assumption|]. now exists hi, lo.
  - right. split; [|reflexivity].
    intros [_ [_ [hi' [lo' [Hhi' [Hlo' Hlt]]]]]].
    rewrite (is_max_unique _ _ _ Hhi Hhi'), (is_min_unique _ _ _ Hlo Hlo') in Hge.
    contradiction.
Qed.

Lemma check_loop_spec (st : method -> series) (ms : list method) :
  NoDup ms ->
  forall acc, exists new,
    check_loop st ms acc = Ok (list_to_set new ∪ acc.1, acc.2 ++ new) /\
    NoDup new /\
    forall m, In m new <->
      In m ms /\ (m ∉ acc.1) /\ window_converged (energy (st m)).
Proof.
  induction ms as [|m ms IH]; intros Hnd acc.
  - exists []. cbn. split.
    + rewrite app_nil_r. destruct acc as [c k]. cbn. f_equal. f_equal.
      set_solver.
    + split; [constructor|]. intros m. cbn. tauto.
  - apply NoDup_cons in Hnd as [Hm Hnd].
    rewrite list_elem_of_In in Hm.
    cbn [check_loop].
    destruct (check_method_spec st acc m) as [(Hnin & Hw & ->)|(Hno & ->)];
      cbn [mbind result_bind].
    + destruct (IH Hnd ({[m]} ∪ acc.1, acc.2 ++ [m])) as (new & -> & Hnew & Hiff).
      cbn [fst snd] in *. exists (m :: new). split; [|split].
      * f_equal. rewrite <- app_assoc. cbn. f_equal. set_solver.
      * apply NoDup_cons. split; [|assumption].
        rewrite list_elem_of_In. intros Hin. apply Hiff in Hin.
        destruct Hin as [Hin _]. contradiction.
      * intros m'. cbn [In]. rewrite Hiff. split.
        -- intros [<-|(Hin & Hnot & Hw')];
             [split; [now left|now split]|].
           split; [now right|]. split; [set_solver|assumption].
        -- intros ([<-|Hin] & Hnot & Hw'); [now left|right].
           split; [assumption|]. split; [|assumption].
           assert (m <> m') by (intros ->; contradiction). set_solver.
    + destruct (IH Hnd acc) as (new & -> & Hnew & Hiff).
      exists new. split; [reflexivity|]. split; [assumption|].
      intros m'. rewrite Hiff. cbn [In]. split.
      * intros (Hin & Hrest). split; [now right|assumption].
      * intros ([<-|Hin] & Hnot & Hw'); [exfalso; apply Hno; now split|].
        split; [assumption|]. now split.
Qed.

Lemma methods_NoDup : NoDup methods.
Proof.
  unfold methods. repeat (apply NoDup_cons; split); try apply NoDup_nil;
    rewrite ?list_elem_of_In; cbn; try tauto;
    intros H; repeat destruct H as [H|H]; congruence.
Qed.

Lemma methods_all (m : method) : In m methods.
Proof. destruct m; cbn; auto. Qed.

(** [check_convergence] never raises: it returns the old set extended with
    the newly marked methods, each marked once. *)
Lemma check_convergence_spec (st : method -> series) (conv : gset method) :
  exists new,
    check_convergence st conv = Ok (list_to_set new ∪ conv, new) /\
    NoDup new /\
    forall m, In m new <-> (m ∉ conv) /\ window_converged (energy (st m)).
Proof.
  destruct (check_loop_spec st methods methods_NoDup (conv, [])) as (new & H & Hnd & Hiff).
  exists new. split; [exact H|]. split; [assumption|].
  intros m. rewrite Hiff. cbn [fst]. pose proof (methods_all m). tauto.
Qed.

(** * One tick, step by step *)

Lemma size_methods (X : gset method) : (size X <= 3)%nat.
Proof.
  assert (HX : X ⊆ list_to_set methods).
  { intros m _. apply elem_of_list_to_set, list_elem_of_In, methods_all. }
  apply subseteq_size in HX.
  assert (Hs : size (list_to_set methods : gset method) = 3%nat).
  { unfold methods. cbn [list_to_set foldr].
    rewrite !size_union, !size_singleton, size_empty by set_solver.
    reflexivity. }
  lia.
Qed.

(** [sample] raises only through [l[-1]] on an empty list. *)
Lemma next_energy_ok (s : dashboard) (m : method) (u : R) :
  (m ∈ converged_methods s -> energy (data_storage s m) <> []) ->
  exists e, next_energy s m u = Ok e.
Proof.
  intros Hne. unfold next_energy.
  destruct (decide (m ∈ converged_methods s)) as [Hin|Hnin].
  - unfold held_energy.
    destruct (py_last_nonempty _ (Hne Hin)) as [prev ->].
    eexists. reflexivity.
  - eexists. reflexivity.
Qed.

Lemma sample_inv (s : dashboard) (u : draws) (es : method -> R) :
  sample s u = Ok es ->
  forall m, next_energy s m (draw u m) = Ok (es m).
Proof.
  unfold sample. intros H.
  destruct (next_energy s normal_vqe (u_normal u)) as [e1|] eqn:E1;
    cbn [mbind result_bind] in H; [|discriminate].
  destruct (next_energy s vqe_uccsd_hybrid (u_hybrid u)) as [e2|] eqn:E2;
    cbn [mbind result_bind] in H; [|discriminate].
  destruct (next_energy s vqe_uccsd_hybrid_zne (u_zne u)) as [e3|] eqn:E3;
    cbn [mbind result_bind] in H; [|discriminate].
  injection H as <-. intros []; assumption.
Qed.

Lemma sample_ok (s : dashboard) (u : draws) :
  (forall m, m ∈ converged_methods s -> energy (data_storage s m) <> []) ->
  exists es, sample s u = Ok es.
Proof.
  intros Hne. unfold sample.
  destruct (next_energy_ok s normal_vqe (u_normal u) (Hne _)) as [e1 ->].
  destruct (next_energy_ok s vqe_uccsd_hybrid (u_hybrid u) (Hne _)) as [e2 ->].
  destruct (next_energy_ok s vqe_uccsd_hybrid_zne (u_zne u) (Hne _)) as [e3 ->].
  eexists. reflexivity.
Qed.

(** Once the samples are drawn, the tick cannot raise; its result is: *)
Lemma generate_new_data_point_eq (s : dashboard) (u : draws) (es : method -> R) :
  sample s u = Ok es ->
  let st := store (data_storage s) (current_iteration s) es in
  exists new,
    NoDup new /\
    (forall m, In m new <->
       (m ∉ converged_methods s) /\ window_converged (energy (st m))) /\
    generate_new_data_point s u =
      Ok ({| data_storage := truncated st;
             current_iteration := current_iteration s + 1;
             simulation_stopped :=
               if (size (list_to_set new ∪ converged_methods s) =? 3)%nat
               then true else simulation_stopped s;
             converged_methods := list_to_set new ∪ converged_methods s |},
          new).
Proof.
  intros Hs st. unfold generate_new_data_point. rewrite Hs.
  cbn [mbind result_bind]. fold st.
  destruct (check_convergence_spec st (converged_methods s))
    as (new & -> & Hnd & Hiff).
  exists new. split; [assumption|]. split; [assumption|]. reflexivity.
Qed.

Lemma generate_new_data_point_inv (s : dashboard) (u : draws)
    (s' : dashboard) (marked : list method) :
  generate_new_data_point s u = Ok (s', marked) ->
  exists es, sample s u = Ok es.
Proof.
  unfold generate_new_data_point.
  destruct (sample s u) as [es|e]; [eauto|discriminate].
Qed.

(** * Invariants of the dashboard *)

Lemma consistent_initial : consistent initial.
Proof.
  constructor; cbn; try reflexivity; try lia.
  - intros m Hm. set_solver.
  - rewrite size_empty. split; [discriminate|lia].
Qed.

Lemma consistent_sample (s : dashboard) (u : draws) :
  consistent s -> exists es, sample s u = Ok es.
Proof.
  intros Hc. apply sample_ok. intros m Hm He.
  pose proof (cons_conv s Hc m Hm) as H5. rewrite He in H5. cbn in H5. lia.
Qed.

Lemma truncated_energy_length (st : method -> series) (m : method) :
  (forall m, length (iterations (st m)) = length (energy (st m))) ->
  (forall m, length (energy (st m)) = length (energy (st normal_vqe))) ->
  length (energy (truncated st m)) = Nat.min 50 (length (energy (st m))) /\
  length (iterations (truncated st m)) = Nat.min 50 (length (energy (st m))).
Proof.
  intros Hp Hsame. unfold truncated.
  destruct (Nat.ltb_spec 50 (length (iterations (st normal_vqe)))) as [Hlt|Hge].
  - unfold keep_last_50. cbn [energy iterations].
    rewrite !py_suffix_length by lia. rewrite Hp. split; reflexivity.
  - rewrite Hp in Hge. rewrite <- (Hsame m) in Hge. rewrite Hp. lia.
Qed.

Lemma consistent_generate (s : dashboard) (u : draws)
    (s' : dashboard) (marked : list method) :
  consistent s ->
  generate_new_data_point s u = Ok (s', marked) ->
  consistent s'.
Proof.
  intros Hc Hg.
  destruct (generate_new_data_point_inv _ _ _ _ Hg) as [es Hs].
  destruct (generate_new_data_point_eq s u es Hs) as (new & Hnd & Hiff & Heq).
  rewrite Heq in Hg. injection Hg as <- <-.
  set (st := store (data_storage s) (current_iteration s) es) in *.
  assert (Hp : forall m, length (iterations (st m)) = length (energy (st m))).
  { intros m. unfold st, store, append_point. cbn.
    rewrite !length_app, (cons_pairs s Hc). reflexivity. }
  assert (Hsame : forall m, length (energy (st m)) = length (energy (st normal_vqe))).
  { intros m. unfold st, store, append_point. cbn.
    rewrite !length_app, (cons_same s Hc m). reflexivity. }
  assert (Hgrow : forall m, length (energy (st m)) = S (length (energy (data_storage s m)))).
  { intros m. unfold st, store, append_point. cbn. rewrite length_app. cbn. lia. }
  constructor; cbn [data_storage current_iteration simulation_stopped converged_methods].
  - intros m. destruct (truncated_energy_length st m Hp Hsame) as [-> ->]. reflexivity.
  - intros m.
    destruct (truncated_energy_length st m Hp Hsame) as [-> _].
    destruct (truncated_energy_length st normal_vqe Hp Hsame) as [-> _].
    rewrite Hsame. reflexivity.
  - destruct (truncated_energy_length st normal_vqe Hp Hsame) as [-> _]. lia.
  - intros m Hm.
    destruct (truncated_energy_length st m Hp Hsame) as [-> _].
    apply elem_of_union in Hm as [Hm|Hm].
    + apply elem_of_list_to_set, list_elem_of_In, Hiff in Hm.
      destruct Hm as (_ & Hw & _). lia.
    + pose proof (cons_conv s Hc m Hm). rewrite Hgrow. lia.
  - destruct (Nat.eqb_spec (size (list_to_set new ∪ converged_methods s)) 3%nat)
      as [He|Hne]; [tauto|].
    rewrite (cons_stop s Hc). split; [|contradiction].
    intros H3. exfalso. apply Hne.
    pose proof (size_methods (list_to_set new ∪ converged_methods s)) as Hle.
    assert (Hsub : converged_methods s ⊆ list_to_set new ∪ converged_methods s)
      by set_solver.
    apply subseteq_size in Hsub. lia.
Qed.

(** The guard of [start_data_generation], on consistent states. *)
Lemma consistent_guard (s : dashboard) :
  consistent s ->
  simulation_stopped s || (3 <=? size (converged_methods s))%nat
  = simulation_stopped s.
Proof.
  intros Hc. pose proof (cons_stop s Hc) as Hst.
  pose proof (size_methods (converged_methods s)) as Hle.
  destruct (simulation_stopped s); [reflexivity|]. cbn [orb].
  apply Nat.leb_gt.
  destruct (Nat.eq_dec (size (converged_methods s)) 3%nat) as [He|Hne]; [|lia].
  apply Hst in He. discriminate.
Qed.

Lemma start_stopped (s : dashboard) (u : draws) :
  consistent s -> simulation_stopped s = true ->
  start_data_generation s u =
    Ok {| after := s; marks := []; rescheduled := false |}.
Proof.
  intros Hc Hs. unfold start_data_generation.
  rewrite Hs. cbn [orb].
  apply (cons_stop s Hc) in Hs as H3. rewrite H3. cbn [Nat.leb].
  unfold set_stopped. rewrite <- Hs. destruct s; reflexivity.
Qed.

Lemma start_running (s : dashboard) (u : draws) :
  consistent s -> simulation_stopped s = false ->
  start_data_generation s u =
    '(s', marked) ← generate_new_data_point s u ;
    Ok {| after := s'; marks := marked;
          rescheduled := negb (simulation_stopped s') |}.
Proof.
  intros Hc Hs. unfold start_data_generation.
  rewrite (consistent_guard s Hc), Hs. reflexivity.
Qed.

Lemma consistent_start (s : dashboard) (u : draws) (o : outcome) :
  consistent s -> start_data_generation s u = Ok o -> consistent (after o).
Proof.
  intros Hc Ho.
  destruct (simulation_stopped s) eqn:Hs.
  - rewrite (start_stopped s u Hc Hs) in Ho. injection Ho as <-. exact Hc.
  - rewrite (start_running s u Hc Hs) in Ho.
    destruct (generate_new_data_point s u) as [[s' mk]|e] eqn:Hg;
      cbn [mbind result_bind] in Ho; [|discriminate].
    injection Ho as <-. cbn. eapply consistent_generate; eassumption.
Qed.

Lemma consistent_button_click (s : dashboard) (button_text : string) :
  consistent s -> consistent (button_click s button_text).
Proof.
  intros Hc. unfold button_click.
  destruct (String.eqb button_text "Run Simulation"); [|exact Hc].
  exact consistent_initial.
Qed.

(** On a consistent state the timer callback never raises. *)
Lemma start_total (s : dashboard) (u : draws) :
  consistent s -> exists o, start_data_generation s u = Ok o.
Proof.
  intros Hc. destruct (simulation_stopped s) eqn:Hs.
  - rewrite (start_stopped s u Hc Hs). eauto.
  - rewrite (start_running s u Hc Hs).
    destruct (consistent_sample s u Hc) as [es Hes].
    destruct (generate_new_data_point_eq s u es Hes) as (new & _ & _ & ->).
    cbn [mbind result_bind]. eauto.
Qed.

(** * The series against the history of the run *)

Lemma combine_snoc {A B : Type} (l : list A) (l' : list B) (x : A) (y : B) :
  length l = length l' ->
  combine (l ++ [x]) (l' ++ [y]) = combine l l' ++ [(x, y)].
Proof.
  revert l'. induction l as [|a l IH]; intros [|b l'] Hlen; cbn in *;
    try discriminate; [reflexivity|].
  f_equal. apply IH. lia.
Qed.

Lemma points_store (st : method -> series) (it : Z) (es : method -> R) (m : method) :
  length (iterations (st m)) = length (energy (st m)) ->
  points (store st it es m) = points (st m) ++ [(it, es m)].
Proof.
  intros Hlen. unfold points, store, append_point. cbn [iterations energy].
  now apply combine_snoc.
Qed.

Lemma points_truncated (st : method -> series) (m : method) :
  (forall m, length (iterations (st m)) = length (energy (st m))) ->
  (forall m, length (energy (st m)) = length (energy (st normal_vqe))) ->
  points (truncated st m) = py_suffix 50 (points (st m)).
Proof.
  intros Hp Hsame. unfold truncated.
  destruct (Nat.ltb_spec 50 (length (iterations (st normal_vqe)))) as [Hlt|Hge].
  - unfold points, keep_last_50. cbn [iterations energy].
    apply py_suffix_combine, Hp.
  - symmetry. apply py_suffix_short. unfold points.
    rewrite length_combine, Hp, Nat.min_id, Hsame, <- Hp. exact Hge.
Qed.

Lemma tracked_initial : tracked initial no_history.
Proof. constructor; intros m; reflexivity. Qed.

Lemma tracked_start (s : dashboard) (u : draws) (o : outcome) (h h' : history) :
  consistent s -> tracked s h ->
  start_data_generation s u = Ok o ->
  appended s u h = Ok h' ->
  tracked (after o) h'.
Proof.
  intros Hc Ht Ho Hh. unfold appended in Hh.
  rewrite (consistent_guard s Hc) in Hh.
  destruct (simulation_stopped s) eqn:Hs.
  - rewrite (start_stopped s u Hc Hs) in Ho.
    injection Ho as <-. injection Hh as <-. exact Ht.
  - rewrite (start_running s u Hc Hs) in Ho.
    destruct (sample s u) as [es|e] eqn:Hes;
      cbn [mbind result_bind] in Hh; [|discriminate].
    injection Hh as <-.
    destruct (generate_new_data_point_eq s u es Hes) as (new & _ & _ & Hg).
    rewrite Hg in Ho. cbn [mbind result_bind] in Ho. injection Ho as <-.
    cbn [after].
    set (st := store (data_storage s) (current_iteration s) es).
    assert (Hp : forall m, length (iterations (st m)) = length (energy (st m))).
    { intros m. unfold st, store, append_point. cbn.
      rewrite !length_app, (cons_pairs s Hc). reflexivity. }
    assert (Hsame : forall m, length (energy (st m)) = length (energy (st normal_vqe))).
    { intros m. unfold st, store, append_point. cbn.
      rewrite !length_app, (cons_same s Hc m). reflexivity. }
    constructor; cbn [data_storage current_iteration]; intros m.
    + rewrite (points_truncated st m Hp Hsame). unfold st.
      rewrite points_store by apply (cons_pairs s Hc).
      rewrite (tr_points s h Ht). apply py_suffix_snoc. lia.
    + rewrite map_app, length_app, seq_app, map_app. cbn [length map seq fst].
      rewrite (tr_iters s h Ht m), Nat.add_0_l, <- (tr_count s h Ht m).
      reflexivity.
    + rewrite length_app. cbn [length]. rewrite (tr_count s h Ht m). lia.
Qed.

Lemma tracked_button_click (s : dashboard) (h : history) (button_text : string) :
  tracked s h ->
  tracked (button_click s button_text) (reset_history button_text h).
Proof.
  intros Ht. unfold button_click, reset_history.
  destruct (String.eqb button_text "Run Simulation"); [|exact Ht].
  exact tracked_initial.
Qed.

(** * Invariants of the application *)

Lemma requeue_stopped (s : dashboard) (u : draws) (o : outcome) :
  consistent s -> start_data_generation s u = Ok o ->
  (requeue o <= 1)%nat /\
  (simulation_stopped (after o) = true -> requeue o = 0%nat).
Proof.
  intros Hc Ho. unfold requeue.
  destruct (simulation_stopped s) eqn:Hs.
  - rewrite (start_stopped s u Hc Hs) in Ho. injection Ho as <-. cbn. lia.
  - rewrite (start_running s u Hc Hs) in Ho.
    destruct (generate_new_data_point s u) as [[s' mk]|e];
      cbn [mbind result_bind] in Ho; [|discriminate].
    injection Ho as <-. cbn [after rescheduled].
    destruct (simulation_stopped s'); cbn; split; auto; discriminate.
Qed.

Lemma step_invariant (a : app) (h : history) (a' : app) (h' : history) :
  run_inv a h -> step a h a' h' -> run_inv a' h'.
Proof.
  intros Hinv Hstep.
  destruct Hstep as [a h u a' h' Hp Hu Hf Hh|a h text];
    destruct Hinv as [Hc Ht Hle Hst].
  - unfold timer_fires in Hf.
    destruct (start_data_generation (dash a) u) as [o|e] eqn:Ho;
      cbn [mbind result_bind] in Hf; [|discriminate].
    injection Hf as <-.
    destruct (requeue_stopped _ _ _ Hc Ho) as [Hq Hq'].
    constructor; cbn [dash pending].
    + eapply consistent_start; eassumption.
    + eapply tracked_start; eassumption.
    + lia.
    + intros Hs. specialize (Hq' Hs). lia.
  - constructor; cbn [click dash pending].
    + now apply consistent_button_click.
    + now apply tracked_button_click.
    + assumption.
    + unfold button_click.
      destruct (String.eqb text "Run Simulation"); [discriminate|assumption].
Qed.

Lemma run_invariant (a : app) (h : history) : run a h -> run_inv a h.
Proof.
  induction 1 as [u a h Hu Hl Hh|a h a' h' Hrun IH Hstep].
  - unfold launch in Hl.
    destruct (start_data_generation initial u) as [o|e] eqn:Ho;
      cbn [mbind result_bind] in Hl; [|discriminate].
    injection Hl as <-.
    destruct (requeue_stopped _ _ _ consistent_initial Ho) as [Hq Hq'].
    constructor; cbn [dash pending]; auto.
    + eapply consistent_start; [apply consistent_initial|eassumption].
    + eapply tracked_start;
        [apply consistent_initial|apply tracked_initial|eassumption|eassumption].
  - eapply step_invariant; eassumption.
Qed.

Lemma run_steps (a : app) (h : history) (a' : app) (h' : history) :
  run a h -> steps a h a' h' -> run a' h'.
Proof.
  intros Hrun Hsteps. induction Hsteps as [|a h a1 h1 a2 h2 _ IH Hstep].
  - assumption.
  - eapply run_step; [apply IH; assumption|eassumption].
Qed.

(** * Consecutive ticks *)

Lemma start_marks (s : dashboard) (u : draws) (o : outcome) :
  start_data_generation s u = Ok o ->
  converged_methods s ⊆ converged_methods (after o) /\
  NoDup (marks o) /\
  forall m, In m (marks o) <->
    (m ∉ converged_methods s) /\ m ∈ converged_methods (after o).
Proof.
  unfold start_data_generation.
  destruct (simulation_stopped s || (3 <=? size (converged_methods s))%nat).
  - intros Ho. injection Ho as <-. cbn [after marks].
    assert (Hsame : forall b : bool,
              converged_methods (if b then set_stopped s else s)
              = converged_methods s)
      by (intros []; reflexivity).
    split; [rewrite Hsame; reflexivity|]. split; [constructor|].
    intros m. rewrite Hsame. cbn [In].
    split; [intros []|intros [Hn Hi]; contradiction].
  - destruct (generate_new_data_point s u) as [[s' mk]|e] eqn:Hg;
      cbn [mbind result_bind]; [|discriminate].
    intros Ho. injection Ho as <-. cbn [after marks].
    destruct (generate_new_data_point_inv _ _ _ _ Hg) as [es Hes].
    destruct (generate_new_data_point_eq s u es Hes) as (new & Hnd & Hiff & Heq).
    rewrite Heq in Hg. injection Hg as <- <-. cbn [converged_methods].
    split; [set_solver|]. split; [assumption|].
    intros m. rewrite Hiff. split.
    + intros [Hn Hw]. split; [assumption|].
      apply elem_of_union_l, elem_of_list_to_set, list_elem_of_In, Hiff.
      now split.
    + intros [Hn Hi]. apply elem_of_union in Hi as [Hi|Hi]; [|contradiction].
      apply elem_of_list_to_set, list_elem_of_In, Hiff in Hi. exact Hi.
Qed.

Lemma ticks_marks (s : dashboard) (us : list draws)
    (s' : dashboard) (marked : list method) :
  ticks s us = Ok (s', marked) ->
  converged_methods s ⊆ converged_methods s' /\
  NoDup marked /\
  forall m, In m marked <->
    (m ∉ converged_methods s) /\ m ∈ converged_methods s'.
Proof.
  revert s s' marked. induction us as [|u us IH]; intros s s' marked Ht.
  - cbn in Ht. injection Ht as <- <-. split; [set_solver|].
    split; [constructor|]. intros m. cbn.
    split; [intros []|intros [Hn Hi]; contradiction].
  - cbn [ticks] in Ht.
    destruct (start_data_generation s u) as [o|e] eqn:Ho;
      cbn [mbind result_bind] in Ht; [|discriminate].
    destruct (ticks (after o) us) as [[s1 mk]|e] eqn:Hrest;
      cbn [mbind result_bind] in Ht; [|discriminate].
    injection Ht as <- <-.
    destruct (start_marks s u o Ho) as (Hsub & Hnd & Hiff).
    destruct (IH _ _ _ Hrest) as (Hsub' & Hnd' & Hiff').
    split; [set_solver|]. split.
    + apply NoDup_app. split; [assumption|]. split; [|assumption].
      intros m Hm Hm'. rewrite list_elem_of_In in Hm, Hm'.
      apply Hiff in Hm as [_ Hm]. apply Hiff' in Hm' as [Hm' _]. contradiction.
    + intros m. rewrite in_app_iff, Hiff, Hiff'. split.
      * intros [[Hn Hi]|[Hn Hi]]; (split; [|auto]); [assumption|].
        intros Hin. apply Hn, Hsub, Hin.
      * intros [Hn Hi].
        destruct (decide (m ∈ converged_methods (after o))); [left|right]; auto.
Qed.

Lemma ticks_stopped (s : dashboard) (us : list draws) :
  consistent s -> simulation_stopped s = true -> ticks s us = Ok (s, []).
Proof.
  intros Hc Hs. induction us as [|u us IH]; [reflexivity|].
  cbn [ticks]. rewrite (start_stopped s u Hc Hs).
  cbn [mbind result_bind after]. rewrite IH. reflexivity.
Qed.

Lemma ticks_total (s : dashboard) (us : list draws) :
  consistent s -> exists r, ticks s us = Ok r.
Proof.
  revert s. induction us as [|u us IH]; intros s Hc; [cbn; eauto|].
  cbn [ticks]. destruct (start_total s u Hc) as [o Ho]. rewrite Ho.
  cbn [mbind result_bind].
  destruct (IH (after o) (consistent_start s u o Hc Ho)) as [[s' mk] ->].
  cbn [mbind result_bind]. eauto.
Qed.

(** * A first concrete run: the launch with all draws equal to 0 *)

Lemma zero_draws_valid : valid_draws zero_draws.
Proof. unfold valid_draws, unit_draw, zero_draws; cbn; lra. Qed.

Lemma launch_zero : launch zero_draws = Ok first_app.
Proof. reflexivity. Qed.

Lemma first_run : run first_app first_history.
Proof.
  apply (run_launch zero_draws).
  - exact zero_draws_valid.
  - exact launch_zero.
  - reflexivity.
Qed.

(** * Scripted runs are runs *)

Section Script.

Variable E : method -> nat -> R.
Variable U : nat -> draws.
Variable C : nat -> gset method.
Variable n : nat.

Hypothesis n_le : (n <= 50)%nat.
Hypothesis C_0 : C 0%nat = ∅.
Hypothesis C_small : forall k, (k < n)%nat -> (size (C k) < 3)%nat.
Hypothesis U_valid : forall k, (k < n)%nat -> valid_draws (U k).
Hypothesis E_fresh : forall k m, (k < n)%nat -> (m ∉ C k) ->
  E m k = fresh_energy m (Z.of_nat k) (draw (U k) m).
Hypothesis E_held : forall k m, (k < n)%nat -> m ∈ C k ->
  E m k = E m (k - 1)%nat + jitter m * (draw (U k) m - 0.5).
Hypothesis C_next : forall k m, (k < n)%nat ->
  (m ∈ C (S k) <->
   m ∈ C k \/ window_converged (map (E m) (seq 0 (S k)))).

Lemma script_next_energy (k : nat) (m : method) :
  (k < n)%nat ->
  next_energy (script_state E C k) m (draw (U k) m) = Ok (E m k).
Proof.
  intros Hk. unfold next_energy. cbn [script_state converged_methods
    current_iteration data_storage energy].
  destruct (decide (m ∈ C k)) as [Hin|Hnin].
  - destruct k as [|k'].
    { rewrite C_0 in Hin. exfalso. revert Hin. apply not_elem_of_empty. }
    unfold held_energy. rewrite seq_S, map_app. cbn [map Nat.add].
    rewrite py_last_snoc. cbn [mbind result_bind].
    rewrite (E_held (S k') m Hk Hin). cbn [Nat.sub].
    rewrite Nat.sub_0_r. reflexivity.
  - rewrite (E_fresh k m Hk Hnin). reflexivity.
Qed.

Lemma script_sample (k : nat) :
  (k < n)%nat ->
  sample (script_state E C k) (U k) = Ok (fun m => E m k).
Proof.
  intros Hk. unfold sample.
  pose proof (script_next_energy k normal_vqe Hk) as H1.
  pose proof (script_next_energy k vqe_uccsd_hybrid Hk) as H2.
  pose proof (script_next_energy k vqe_uccsd_hybrid_zne Hk) as H3.
  cbn [draw] in H1, H2, H3. rewrite H1, H2, H3.
  cbn [mbind result_bind]. f_equal.
  apply functional_extensionality. intros []; reflexivity.
Qed.

Lemma script_store (k : nat) :
  store (data_storage (script_state E C k)) (Z.of_nat k) (fun m => E m k)
  = data_storage (script_state E C (S k)).
Proof.
  apply functional_extensionality. intros m.
  unfold store, append_point. cbn [script_state data_storage iterations energy].
  rewrite seq_S, !map_app. reflexivity.
Qed.

Lemma script_step (k : nat) :
  (k < n)%nat ->
  exists new,
    (forall m, In m new <-> m ∈ C (S k) /\ (m ∉ C k)) /\
    start_data_generation (script_state E C k) (U k) =
      Ok {| after := script_state E C (S k);
            marks := new;
            rescheduled := negb (size (C (S k)) =? 3)%nat |}.
Proof.
  intros Hk. pose proof (C_small k Hk) as Hsmall.
  assert (Hs3 : (size (C k) =? 3)%nat = false) by (apply Nat.eqb_neq; lia).
  destruct (generate_new_data_point_eq _ _ _ (script_sample k Hk))
    as (new & Hnd & Hiff & Heq).
  cbn [script_state current_iteration converged_methods simulation_stopped]
    in Hiff, Heq.
  change (data_storage _) with (data_storage (script_state E C k)) in Hiff, Heq.
  rewrite script_store in Hiff, Heq.
  assert (HC : list_to_set new ∪ C k = C (S k)).
  { apply set_eq. intros m.
    rewrite elem_of_union, elem_of_list_to_set, list_elem_of_In.
    rewrite (C_next k m Hk), Hiff.
    cbn [script_state data_storage energy].
    destruct (decide (m ∈ C k)); tauto. }
  rewrite HC in Heq.
  assert (Htr : truncated (data_storage (script_state E C (S k)))
                = data_storage (script_state E C (S k))).
  { unfold truncated. cbn [script_state data_storage iterations].
    rewrite length_map, length_seq.
    destruct (Nat.ltb_spec 50 (S k)); [lia|reflexivity]. }
  rewrite Htr, Hs3 in Heq.
  exists new. split.
  - intros m. rewrite Hiff, (C_next k m Hk).
    cbn [script_state data_storage energy]. tauto.
  - unfold start_data_generation.
    cbn [script_state simulation_stopped converged_methods].
    rewrite Hs3. cbn [orb].
    destruct (Nat.leb_spec 3 (size (C k))) as [Hge|_]; [lia|].
    fold (script_state E C k). rewrite Heq. cbn [mbind result_bind].
    assert (Hst : {| data_storage := data_storage (script_state E C (S k));
                     current_iteration := Z.of_nat k + 1;
                     simulation_stopped :=
                       if (size (C (S k)) =? 3)%nat then true else false;
                     converged_methods := C (S k) |}
                  = script_state E C (S k)).
    { unfold script_state. f_equal; [lia|].
      destruct (size (C (S k)) =? 3)%nat; reflexivity. }
    rewrite Hst. reflexivity.
Qed.

Lemma script_timer (k : nat) :
  (k < n)%nat ->
  timer_fires (script_app E C k) (U k) = Ok (script_app E C (S k)).
Proof.
  intros Hk. destruct (script_step k Hk) as (new & _ & Hstart).
  unfold timer_fires. cbn [script_app dash pending]. rewrite Hstart.
  cbn [mbind result_bind after]. unfold requeue. cbn [rescheduled].
  pose proof (C_small k Hk) as Hsmall.
  assert (Hs3 : (size (C k) =? 3)%nat = false) by (apply Nat.eqb_neq; lia).
  rewrite Hs3. unfold script_app.
  destruct (size (C (S k)) =? 3)%nat; reflexivity.
Qed.

Lemma script_appended (k : nat) :
  (k < n)%nat ->
  appended (script_state E C k) (U k) (script_history E k)
  = Ok (script_history E (S k)).
Proof.
  intros Hk. unfold appended.
  pose proof (C_small k Hk) as Hsmall.
  assert (Hs3 : (size (C k) =? 3)%nat = false) by (apply Nat.eqb_neq; lia).
  cbn [script_state simulation_stopped converged_methods].
  rewrite Hs3. cbn [orb].
  destruct (Nat.leb_spec 3 (size (C k))) as [Hge|_]; [lia|].
  fold (script_state E C k). rewrite (script_sample k Hk).
  cbn [mbind result_bind]. f_equal.
  apply functional_extensionality. intros m.
  unfold script_history. cbn [script_state current_iteration].
  rewrite seq_S, !map_app. cbn [map Nat.add].
  rewrite combine_snoc by (rewrite !length_map; reflexivity).
  reflexivity.
Qed.

Lemma script_launch :
  (0 < n)%nat ->
  launch (U 0%nat) = Ok (script_app E C 1) /\
  appended initial (U 0%nat) no_history = Ok (script_history E 1).
Proof.
  intros Hn.
  assert (H0 : script_state E C 0 = initial).
  { unfold script_state, initial. cbn [seq map]. rewrite C_0, size_empty.
    reflexivity. }
  pose proof (script_timer 0 Hn) as Ht.
  pose proof (script_appended 0 Hn) as Ha.
  unfold timer_fires in Ht. cbn [script_app dash pending] in Ht.
  rewrite H0 in Ht, Ha. split.
  - unfold launch.
    destruct (start_data_generation initial (U 0%nat)) as [o|e];
      cbn [mbind result_bind] in *; [|discriminate].
    rewrite <- Ht. rewrite C_0, size_empty. reflexivity.
  - exact Ha.
Qed.

Lemma script_run (k : nat) :
  (1 <= k <= n)%nat -> run (script_app E C k) (script_history E k).
Proof.
  induction k as [|k IH]; [lia|]. intros [_ Hk].
  destruct k as [|k].
  - destruct script_launch as [Hl Ha]; [lia|].
    eapply run_launch; [apply (U_valid 0%nat); lia|exact Hl|exact Ha].
  - eapply run_step; [apply IH; lia|].
    eapply step_timer.
    + cbn [script_app pending].
      pose proof (C_small (S k) ltac:(lia)) as Hsmall.
      destruct (Nat.eqb_spec (size (C (S k))) 3); lia.
    + apply (U_valid (S k)). lia.
    + apply script_timer. lia.
    + apply script_appended. lia.
Qed.

End Script.

(** * Windows of scripted energies *)

Lemma suffix_map_seq (f : nat -> R) (j : nat) :
  (4 <= j)%nat ->
  py_suffix 5 (map f (seq 0 (S j))) = map f (seq (j - 4) 5).
Proof.
  intros Hj. unfold py_suffix.
  rewrite length_map, length_seq, skipn_map, skipn_seq.
  f_equal. f_equal; lia.
Qed.

Lemma window_short (l : list R) :
  (length l < 5)%nat -> ~ window_converged l.
Proof. intros Hl [H5 _]. lia. Qed.

Lemma window_gap (l : list R) (x y : R) :
  In x (py_suffix 5 l) -> In y (py_suffix 5 l) -> 0.001 <= x - y ->
  ~ window_converged l.
Proof.
  intros Hx Hy Hgap (_ & hi & lo & [_ Hhi] & [_ Hlo] & Hlt).
  specialize (Hhi x Hx). specialize (Hlo y Hy). lra.
Qed.

(** A window holding a drop of at least the threshold between an even
    iteration and the next one has not converged. *)
Lemma window_alternating (f : nat -> R) (k : nat) :
  (4 <= k)%nat ->
  (forall i, (k - 4 <= i <= k - 3)%nat -> Nat.even i = true ->
     0.001 <= f i - f (S i)) ->
  ~ window_converged (map f (seq 0 (S k))).
Proof.
  intros Hk Hgap.
  assert (Hi : exists i, (k - 4 <= i <= k - 3)%nat /\ Nat.even i = true).
  { destruct (Nat.even (k - 4)) eqn:He.
    - exists (k - 4)%nat. split; [lia|assumption].
    - exists (S (k - 4)). split; [lia|].
      rewrite Nat.even_succ. unfold Nat.odd. rewrite He. reflexivity. }
  destruct Hi as (i & Hi & He).
  apply (window_gap _ (f i) (f (S i))).
  - rewrite suffix_map_seq by assumption. apply in_map, in_seq. lia.
  - rewrite suffix_map_seq by assumption. apply in_map, in_seq. lia.
  - now apply Hgap.
Qed.

(** A window of five equal energies has converged. *)
Lemma window_level (f : nat -> R) (k : nat) (v : R) :
  (4 <= k)%nat ->
  (forall i, (k - 4 <= i <= k)%nat -> f i = v) ->
  window_converged (map f (seq 0 (S k))).
Proof.
  intros Hk Hv. split; [rewrite length_map, length_seq; lia|].
  rewrite suffix_map_seq by assumption.
  assert (Hall : forall x, In x (map f (seq (k - 4) 5)) -> x = v).
  { intros x Hx. apply in_map_iff in Hx as (i & <- & Hi).
    apply in_seq in Hi. apply Hv. lia. }
  assert (Hin : In v (map f (seq (k - 4) 5))).
  { rewrite <- (Hv (k - 4)%nat) by lia. apply in_map, in_seq. lia. }
  exists v, v. split; [|split].
  - split; [assumption|]. intros x Hx. rewrite (Hall x Hx). lra.
  - split; [assumption|]. intros x Hx. rewrite (Hall x Hx). lra.
  - lra.
Qed.

(** * The exponential *)

Lemma decay_pos (m : method) : 0 < decay m.
Proof. destruct m; cbn; lra. Qed.

Lemma exp_decay_decreasing (d : R) (i j : nat) :
  0 < d -> (i < j)%nat ->
  exp (- IZR (Z.of_nat j) / d) < exp (- IZR (Z.of_nat i) / d).
Proof.
  intros Hd Hij. apply exp_increasing.
  assert (Hlt : IZR (Z.of_nat i) < IZR (Z.of_nat j)) by (apply IZR_lt; lia).
  unfold Rdiv. apply Rmult_lt_compat_r; [now apply Rinv_0_lt_compat|lra].
Qed.

Lemma exp_decay_monotone (d : R) (i j : nat) :
  0 < d -> (i <= j)%nat ->
  exp (- IZR (Z.of_nat j) / d) <= exp (- IZR (Z.of_nat i) / d).
Proof.
  intros Hd Hij. destruct (Nat.eq_dec i j) as [->|Hne]; [lra|].
  left. apply exp_decay_decreasing; [assumption|lia].
Qed.

(** The drop from an iteration drawn at 0.5 to the next one drawn at 0. *)
Lemma fresh_energy_gap (m : method) (i : nat) :
  0.001 <= fresh_energy m (Z.of_nat i) 0.5 - fresh_energy m (Z.of_nat (S i)) 0.
Proof.
  pose proof (exp_decay_decreasing (decay m) i (S i) (decay_pos m) ltac:(lia)) as He.
  destruct m; cbn [fresh_energy decay] in *; lra.
Qed.

Lemma fresh_energy_level (m : method) (a i : nat) :
  fresh_energy m (Z.of_nat i) (level_draw m a i) = fresh_energy m (Z.of_nat a) 0.
Proof.
  unfold level_draw.
  destruct m; cbn [fresh_energy amplitude noise decay]; lra.
Qed.

Lemma level_draw_self (m : method) (a : nat) : level_draw m a a = 0.
Proof. unfold level_draw. lra. Qed.

Lemma alt_even (i : nat) : Nat.even i = true -> alt i = 0.5.
Proof. unfold alt. now intros ->. Qed.

Lemma alt_after_even (i : nat) : Nat.even i = true -> alt (S i) = 0.
Proof.
  intros He. unfold alt. rewrite Nat.even_succ. unfold Nat.odd. rewrite He.
  reflexivity.
Qed.

Lemma alt_unit (i : nat) : unit_draw (alt i).
Proof. unfold alt, unit_draw. destruct (Nat.even i); lra. Qed.

(** * The run in which normal_vqe converges first *)

Lemma exp_fifth : 0.8 < exp (- IZR (Z.of_nat 4) / 20).
Proof.
  change (IZR (Z.of_nat 4)) with 4.
  assert (Hne : Ropp 4 / 20 <> 0) by lra.
  pose proof (exp_ineq1 (Ropp 4 / 20) Hne). lra.
Qed.

Lemma level_draw_start_unit (k : nat) :
  (k <= 4)%nat -> unit_draw (level_draw normal_vqe 0 k).
Proof.
  intros Hk. unfold level_draw, unit_draw. cbn [amplitude noise decay].
  change (IZR (Z.of_nat 0)) with 0.
  replace (- 0 / 20) with 0 by lra. rewrite exp_0.
  pose proof (exp_decay_monotone 20 k 4 ltac:(lra) Hk) as Hlo.
  pose proof (exp_decay_monotone 20 0 k ltac:(lra) ltac:(lia)) as Hhi.
  change (IZR (Z.of_nat 0)) with 0 in Hhi.
  replace (- 0 / 20) with 0 in Hhi by lra. rewrite exp_0 in Hhi.
  pose proof exp_fifth. lra.
Qed.

Lemma drift_converged_0 : drift_converged 0 = ∅.
Proof. reflexivity. Qed.

Lemma drift_converged_small (k : nat) :
  (k < 8)%nat -> (size (drift_converged k) < 3)%nat.
Proof.
  intros _. unfold drift_converged. destruct (k <? 5)%nat.
  - rewrite size_empty. lia.
  - rewrite size_singleton. lia.
Qed.

Lemma drift_converged_elem (k : nat) (m : method) :
  m ∈ drift_converged k <-> (5 <= k)%nat /\ m = normal_vqe.
Proof.
  unfold drift_converged. destruct (Nat.ltb_spec k 5).
  - split; [intros H0; exfalso; revert H0; apply not_elem_of_empty|lia].
  - rewrite elem_of_singleton. split; [intros ->; split; [lia|reflexivity]|tauto].
Qed.

Lemma drift_draws_valid (k : nat) : (k < 8)%nat -> valid_draws (drift_draws k).
Proof.
  intros Hk. unfold valid_draws, drift_draws. cbn [u_normal u_hybrid u_zne].
  split; [|split; apply alt_unit].
  destruct (Nat.ltb_spec k 5).
  - apply level_draw_start_unit. lia.
  - unfold unit_draw. lra.
Qed.

Lemma drift_energy_fresh (k : nat) (m : method) :
  (k < 8)%nat -> (m ∉ drift_converged k) ->
  drift_energy m k = fresh_energy m (Z.of_nat k) (draw (drift_draws k) m).
Proof.
  intros Hk Hn. rewrite drift_converged_elem in Hn.
  destruct m; cbn [drift_energy draw drift_draws u_normal u_hybrid u_zne];
    try reflexivity.
  destruct (Nat.ltb_spec k 5) as [Hlt|Hge].
  - rewrite fresh_energy_level. cbn [fresh_energy].
    change (IZR (Z.of_nat 0)) with 0.
    replace (- 0 / 20) with 0 by lra. rewrite exp_0. lra.
  - exfalso. apply Hn. split; [assumption|reflexivity].
Qed.

Lemma drift_energy_held (k : nat) (m : method) :
  (k < 8)%nat -> m ∈ drift_converged k ->
  drift_energy m k =
  drift_energy m (k - 1)%nat + jitter m * (draw (drift_draws k) m - 0.5).
Proof.
  intros Hk Hin. apply drift_converged_elem in Hin as [H5 ->].
  assert (Hcases : k = 5%nat \/ k = 6%nat \/ k = 7%nat) by lia.
  destruct Hcases as [-> | [-> | ->]];
    cbn [drift_energy drift_draws draw u_normal jitter Nat.ltb Nat.leb Nat.sub INR];
    lra.
Qed.

Lemma drift_window_open (m : method) (k : nat) :
  m <> normal_vqe ->
  ~ window_converged (map (drift_energy m) (seq 0 (S k))).
Proof.
  intros Hm. destruct (Nat.lt_ge_cases k 4%nat) as [Hlt|Hge].
  - apply window_short. rewrite length_map, length_seq. lia.
  - apply window_alternating; [assumption|].
    intros i _ He.
    assert (Hd : forall j, drift_energy m j = fresh_energy m (Z.of_nat j) (alt j))
      by (intros j; destruct m; [congruence|reflexivity|reflexivity]).
    rewrite !Hd, (alt_even i He), (alt_after_even i He).
    apply fresh_energy_gap.
Qed.

Lemma drift_converged_next (k : nat) (m : method) :
  (k < 8)%nat ->
  (m ∈ drift_converged (S k) <->
   m ∈ drift_converged k \/
   window_converged (map (drift_energy m) (seq 0 (S k)))).
Proof.
  intros Hk. rewrite !drift_converged_elem.
  destruct (decide (m = normal_vqe)) as [->|Hne].
  - destruct (Nat.lt_ge_cases k 4%nat) as [Hlt|Hge].
    + split; [lia|]. intros [[H5 _]|Hw]; [lia|].
      exfalso. revert Hw. apply window_short.
      rewrite length_map, length_seq. lia.
    + split; [|intros _; split; [lia|reflexivity]].
      intros _. destruct (Nat.eq_dec k 4%nat) as [->|Hne]; [|left; split; [lia|reflexivity]].
      right. apply (window_level _ 4%nat (-0.8)); [lia|].
      intros i Hi. cbn [drift_energy].
      destruct (Nat.ltb_spec i 5); [reflexivity|lia].
  - split; [tauto|]. intros [[_ Heq]|Hw]; [contradiction|].
    exfalso. revert Hw. now apply drift_window_open.
Qed.

Lemma drift_run (k : nat) :
  (1 <= k <= 8)%nat -> run (drift_app k) (drift_history k).
Proof.
  apply (script_run drift_energy drift_draws drift_converged 8).
  - lia.
  - exact drift_converged_0.
  - exact drift_converged_small.
  - exact drift_draws_valid.
  - exact drift_energy_fresh.
  - exact drift_energy_held.
  - exact drift_converged_next.
Qed.

Lemma drift_tick (k : nat) :
  (5 <= k < 8)%nat ->
  start_data_generation (drift_state k) (drift_draws k) =
    Ok {| after := drift_state (S k); marks := []; rescheduled := true |}.
Proof.
  intros Hk.
  destruct (script_step drift_energy drift_draws drift_converged 8
              ltac:(lia) drift_converged_0 drift_converged_small
              drift_energy_fresh drift_energy_held drift_converged_next
              k ltac:(lia)) as (new & Hnew & Hstart).
  assert (Hnil : new = []).
  { destruct new as [|m new]; [reflexivity|]. exfalso.
    destruct (proj1 (Hnew m) (or_introl eq_refl)) as [Hin Hnot].
    apply Hnot. apply drift_converged_elem.
    apply drift_converged_elem in Hin. split; [lia|tauto]. }
  assert (Hsz : (size (drift_converged (S k)) =? 3)%nat = false).
  { apply Nat.eqb_neq. unfold drift_converged.
    destruct (S k <? 5)%nat; rewrite ?size_empty, ?size_singleton; lia. }
  unfold drift_state. rewrite Hstart, Hnil, Hsz. reflexivity.
Qed.

Lemma drift_ticks :
  ticks (drift_state 5) [drift_draws 5; drift_draws 6; drift_draws 7]
  = Ok (drift_state 8, []).
Proof.
  cbn [ticks].
  rewrite (drift_tick 5) by lia. cbn [mbind result_bind after marks].
  rewrite (drift_tick 6) by lia. cbn [mbind result_bind after marks].
  rewrite (drift_tick 7) by lia. cbn [mbind result_bind after marks].
  reflexivity.
Qed.

Lemma drift_timer (k : nat) :
  (k < 8)%nat -> timer_fires (drift_app k) (drift_draws k) = Ok (drift_app (S k)).
Proof.
  apply (script_timer drift_energy drift_draws drift_converged 8).
  - lia.
  - exact drift_converged_0.
  - exact drift_converged_small.
  - exact drift_energy_fresh.
  - exact drift_energy_held.
  - exact drift_converged_next.
Qed.

Lemma drift_tail_valid :
  Forall valid_draws [drift_draws 5; drift_draws 6; drift_draws 7].
Proof.
  repeat (apply List.Forall_cons; [apply drift_draws_valid; lia|]).
  apply List.Forall_nil.
Qed.

Lemma drift_normal_converged : normal_vqe ∈ converged_methods (drift_state 5).
Proof. apply drift_converged_elem. split; [lia|reflexivity]. Qed.

Lemma drift_value_at_convergence :
  py_last (energy (data_storage (drift_state 5) normal_vqe)) = Ok (-0.8).
Proof.
  cbn [drift_state script_state data_storage energy].
  rewrite (seq_S 4 0), map_app. cbn [map]. rewrite py_last_snoc.
  reflexivity.
Qed.

Lemma drift_value_three_ticks_later :
  py_last (energy (data_storage (drift_state 8) normal_vqe)) = Ok (-0.8015).
Proof.
  cbn [drift_state script_state data_storage energy].
  rewrite (seq_S 7 0), map_app. cbn [map]. rewrite py_last_snoc.
  f_equal. cbn [drift_energy Nat.add Nat.ltb Nat.leb Nat.sub INR]. lra.
Qed.

Lemma nil_of_no_elem {A : Type} (l : list A) : (forall x, ~ In x l) -> l = [].
Proof.
  destruct l as [|x l]; [reflexivity|]. intros H.
  exfalso. apply (H x). now left.
Qed.

Lemma singleton_of_NoDup {A : Type} (l : list A) (x : A) :
  NoDup l -> (forall y, In y l <-> y = x) -> l = [x].
Proof.
  intros Hnd Hiff. destruct l as [|a l].
  - exfalso. apply (proj2 (Hiff x) eq_refl).
  - assert (Ha : a = x) by (apply Hiff; now left). subst a.
    f_equal. apply nil_of_no_elem. intros y Hy.
    assert (Hyx : y = x) by (apply Hiff; now right). subst y.
    apply NoDup_cons in Hnd as [Hnot _]. apply Hnot, list_elem_of_In, Hy.
Qed.

Lemma drift_mark_tick :
  start_data_generation (drift_state 4) (drift_draws 4) =
    Ok {| after := drift_state 5; marks := [normal_vqe]; rescheduled := true |}.
Proof.
  destruct (script_step drift_energy drift_draws drift_converged 8
              ltac:(lia) drift_converged_0 drift_converged_small
              drift_energy_fresh drift_energy_held drift_converged_next
              4%nat ltac:(lia)) as (new & Hnew & Hstart).
  fold (drift_state 4) (drift_state 5) in Hstart.
  destruct (start_marks _ _ _ Hstart) as (_ & Hnd & _). cbn [marks] in Hnd.
  assert (Hone : new = [normal_vqe]).
  { apply singleton_of_NoDup; [assumption|]. intros m.
    rewrite Hnew, !drift_converged_elem. split.
    - intros [[_ ->] _]. reflexivity.
    - intros ->. split; [split; [lia|reflexivity]|]. intros [Hbad _]. lia. }
  assert (Hsz : (size (drift_converged 5) =? 3)%nat = false).
  { apply Nat.eqb_neq. unfold drift_converged. cbn [Nat.ltb Nat.leb].
    rewrite size_singleton. lia. }
  rewrite Hstart, Hone, Hsz. reflexivity.
Qed.

Lemma drift_mark_ticks :
  ticks (drift_state 4) [drift_draws 4] = Ok (drift_state 5, [normal_vqe]).
Proof.
  cbn [ticks]. rewrite drift_mark_tick. reflexivity.
Qed.


(** * The random walk of a converged method *)

Lemma jitter_pos (m : method) : 0 < jitter m.
Proof. destruct m; cbn; lra. Qed.

Lemma valid_draws_unit (u : draws) (m : method) :
  valid_draws u -> unit_draw (draw u m).
Proof. intros (H1 & H2 & H3). destruct m; assumption. Qed.

Lemma py_last_truncated (st : method -> series) (m : method) :
  py_last (energy (truncated st m)) = py_last (energy (st m)).
Proof.
  unfold truncated.
  destruct (50 <? length (iterations (st normal_vqe)))%nat; [|reflexivity].
  cbn [keep_last_50 energy]. apply py_last_suffix. lia.
Qed.

(** One timer callback moves the last energy of a converged method by at
    most half its jitter, and only if the iteration counter advances. *)
Lemma jitter_step (s : dashboard) (u : draws) (o : outcome) (m : method) (v0 : R) :
  start_data_generation s u = Ok o ->
  valid_draws u ->
  m ∈ converged_methods s ->
  py_last (energy (data_storage s m)) = Ok v0 ->
  exists v1,
    py_last (energy (data_storage (after o) m)) = Ok v1 /\
    Rabs (v1 - v0)
      <= IZR (current_iteration (after o) - current_iteration s) * (jitter m / 2) /\
    (0 <= current_iteration (after o) - current_iteration s <= 1)%Z /\
    m ∈ converged_methods (after o).
Proof.
  intros Ho Hu Hin Hlast. unfold start_data_generation in Ho.
  destruct (simulation_stopped s || (3 <=? size (converged_methods s))%nat).
  - exists v0.
    destruct (3 <=? size (converged_methods s))%nat;
      injection Ho as <-;
      cbn [after set_stopped data_storage current_iteration converged_methods];
      rewrite Z.sub_diag, Rminus_diag, Rabs_R0;
      (split; [assumption|]); (split; [lra|]); (split; [lia|assumption]).
  - destruct (generate_new_data_point s u) as [[s' mk]|e] eqn:Hg;
      cbn [mbind result_bind] in Ho; [|discriminate].
    injection Ho as <-. cbn [after].
    destruct (generate_new_data_point_inv _ _ _ _ Hg) as [es Hes].
    destruct (generate_new_data_point_eq s u es Hes) as (new & _ & _ & Heq).
    rewrite Heq in Hg. injection Hg as <- _.
    cbn [data_storage current_iteration converged_methods].
    pose proof (sample_inv s u es Hes m) as Hm. unfold next_energy in Hm.
    destruct (decide (m ∈ converged_methods s)) as [_|Hn]; [|contradiction].
    unfold held_energy in Hm. rewrite Hlast in Hm.
    cbn [mbind result_bind] in Hm. injection Hm as Hm.
    exists (es m). split; [|split; [|split]].
    + rewrite py_last_truncated. unfold store, append_point. cbn [energy].
      apply py_last_snoc.
    + replace (current_iteration s + 1 - current_iteration s)%Z with 1%Z by lia.
      rewrite <- Hm.
      pose proof (valid_draws_unit u m Hu) as [Hlo Hhi].
      pose proof (jitter_pos m) as Hj.
      apply Rabs_le. destruct m; cbn [jitter] in *; lra.
    + lia.
    + apply elem_of_union_r, Hin.
Qed.

(** In exact arithmetic a step of a converged method is at most half its
    jitter; over several ticks the steps add up. *)
Lemma jitter_walk (s : dashboard) (us : list draws)
    (s' : dashboard) (marked : list method) (m : method) (v0 : R) :
  ticks s us = Ok (s', marked) ->
  Forall valid_draws us ->
  m ∈ converged_methods s ->
  py_last (energy (data_storage s m)) = Ok v0 ->
  exists v1,
    py_last (energy (data_storage s' m)) = Ok v1 /\
    Rabs (v1 - v0)
      <= IZR (current_iteration s' - current_iteration s) * (jitter m / 2) /\
    (0 <= current_iteration s' - current_iteration s <= Z.of_nat (length us))%Z /\
    m ∈ converged_methods s'.
Proof.
  revert s s' marked v0.
  induction us as [|u us IH]; intros s s' marked v0 Ht Hus Hin Hlast.
  - cbn in Ht. injection Ht as <- _. exists v0.
    rewrite Z.sub_diag, Rminus_diag, Rabs_R0. cbn [length].
    split; [assumption|]. split; [lra|]. split; [lia|assumption].
  - cbn [ticks] in Ht.
    destruct (start_data_generation s u) as [o|e] eqn:Ho;
      cbn [mbind result_bind] in Ht; [|discriminate].
    destruct (ticks (after o) us) as [[s1 mk]|e] eqn:Hrest;
      cbn [mbind result_bind] in Ht; [|discriminate].
    injection Ht as <- _.
    apply List.Forall_cons_iff in Hus as [Hu Hus].
    destruct (jitter_step s u o m v0 Ho Hu Hin Hlast)
      as (v1 & Hlast1 & Hb1 & Hi1 & Hin1).
    destruct (IH (after o) s1 mk v1 Hrest Hus Hin1 Hlast1)
      as (v2 & Hlast2 & Hb2 & Hi2 & Hin2).
    exists v2. split; [assumption|]. split; [|split; [|assumption]].
    + replace (current_iteration s1 - current_iteration s)%Z
        with ((current_iteration s1 - current_iteration (after o))
              + (current_iteration (after o) - current_iteration s))%Z by lia.
      rewrite plus_IZR, Rmult_plus_distr_r.
      replace (v2 - v0) with ((v2 - v1) + (v1 - v0)) by lra.
      eapply Rle_trans; [apply Rabs_triang|]. lra.
    + cbn [length]. lia.
Qed.

(** * The run that completes *)

Lemma exp_1_lower : 2.25 <= exp 1.
Proof.
  pose proof (exp_ineq1_le (1 / 2)) as Hh.
  assert (He : exp 1 = exp (1 / 2) * exp (1 / 2))
    by (rewrite <- exp_plus; f_equal; lra).
  nra.
Qed.

Lemma exp_2_lower : 5 < exp 2.
Proof.
  pose proof exp_1_lower as H1.
  assert (He : exp 2 = exp 1 * exp 1)
    by (rewrite <- exp_plus; f_equal; lra).
  nra.
Qed.

Lemma exp_4_lower : 25 < exp 4.
Proof.
  pose proof exp_2_lower as H2.
  assert (He : exp 4 = exp 2 * exp 2)
    by (rewrite <- exp_plus; f_equal; lra).
  nra.
Qed.

Lemma exp_neg_upper (x y c : R) :
  0 < c -> c < exp x -> y < - x -> exp y < / c.
Proof.
  intros Hc Hx Hy.
  apply Rlt_trans with (exp (- x)); [now apply exp_increasing|].
  rewrite exp_Ropp. apply Rinv_lt_contravar; [nra|assumption].
Qed.

Lemma level_draw_41_unit (m : method) (k : nat) :
  (41 <= k)%nat -> unit_draw (level_draw m 41 k).
Proof.
  intros Hk. unfold level_draw, unit_draw.
  pose proof (exp_decay_monotone (decay m) 41 k (decay_pos m) Hk) as Hmono.
  pose proof (exp_pos (- IZR (Z.of_nat k) / decay m)) as Hpos.
  change (IZR (Z.of_nat 41)) with 41 in *.
  destruct m; cbn [amplitude noise decay] in *.
  - pose proof (exp_neg_upper 2 (Ropp 41 / 20) 5 ltac:(lra) exp_2_lower ltac:(lra)).
    lra.
  - pose proof (exp_neg_upper 4 (Ropp 41 / 10) 25 ltac:(lra) exp_4_lower ltac:(lra)).
    lra.
  - pose proof (exp_neg_upper 4 (Ropp 41 / 8) 25 ltac:(lra) exp_4_lower ltac:(lra)).
    lra.
Qed.

Lemma full_draw_unit (m : method) (k : nat) : unit_draw (full_draw m k).
Proof.
  unfold full_draw. destruct (Nat.ltb_spec k 41).
  - apply alt_unit.
  - now apply level_draw_41_unit.
Qed.

Lemma full_draws_valid (k : nat) : (k < 46)%nat -> valid_draws (full_draws k).
Proof.
  intros _. unfold valid_draws, full_draws. cbn [u_normal u_hybrid u_zne].
  repeat split; apply full_draw_unit.
Qed.

Lemma full_converged_0 : full_converged 0 = ∅.
Proof. reflexivity. Qed.

Lemma full_converged_elem (k : nat) (m : method) :
  m ∈ full_converged k <-> (46 <= k)%nat.
Proof.
  unfold full_converged. destruct (Nat.ltb_spec k 46).
  - split; [intros H0; exfalso; revert H0; apply not_elem_of_empty|lia].
  - split; [intros _; assumption|].
    intros _. apply elem_of_list_to_set, list_elem_of_In, methods_all.
Qed.

Lemma full_converged_small (k : nat) :
  (k < 46)%nat -> (size (full_converged k) < 3)%nat.
Proof.
  intros Hk. unfold full_converged.
  destruct (Nat.ltb_spec k 46); [|lia]. rewrite size_empty. lia.
Qed.

Lemma full_energy_fresh (k : nat) (m : method) :
  (k < 46)%nat -> (m ∉ full_converged k) ->
  full_energy m k = fresh_energy m (Z.of_nat k) (draw (full_draws k) m).
Proof. intros _ _. destruct m; reflexivity. Qed.

Lemma full_energy_held (k : nat) (m : method) :
  (k < 46)%nat -> m ∈ full_converged k ->
  full_energy m k =
  full_energy m (k - 1)%nat + jitter m * (draw (full_draws k) m - 0.5).
Proof. intros Hk Hin. apply full_converged_elem in Hin. lia. Qed.

Lemma full_window_open (m : method) (k : nat) :
  (k < 45)%nat ->
  ~ window_converged (map (full_energy m) (seq 0 (S k))).
Proof.
  intros Hk. destruct (Nat.lt_ge_cases k 4%nat) as [Hlt|Hge].
  - apply window_short. rewrite length_map, length_seq. lia.
  - apply window_alternating; [assumption|].
    intros i Hi He.
    assert (Hne : i <> 41%nat) by (intros ->; cbn in He; discriminate).
    unfold full_energy, full_draw.
    destruct (Nat.ltb_spec i 41) as [_|Hbad]; [|lia].
    rewrite (alt_even i He).
    destruct (Nat.ltb_spec (S i) 41) as [_|Hge41].
    + rewrite (alt_after_even i He). apply fresh_energy_gap.
    + replace (S i) with 41%nat by lia. rewrite level_draw_self.
      replace 41%nat with (S i) by lia. apply fresh_energy_gap.
Qed.

Lemma full_window_closed (m : method) :
  window_converged (map (full_energy m) (seq 0 46)).
Proof.
  apply (window_level _ 45%nat (fresh_energy m (Z.of_nat 41) 0)); [lia|].
  intros i Hi. unfold full_energy, full_draw.
  destruct (Nat.ltb_spec i 41) as [Hbad|_]; [lia|].
  apply fresh_energy_level.
Qed.

Lemma full_converged_next (k : nat) (m : method) :
  (k < 46)%nat ->
  (m ∈ full_converged (S k) <->
   m ∈ full_converged k \/
   window_converged (map (full_energy m) (seq 0 (S k)))).
Proof.
  intros Hk. rewrite !full_converged_elem.
  destruct (Nat.eq_dec k 45%nat) as [->|Hne].
  - split; [|lia]. intros _. right. apply full_window_closed.
  - split; [lia|]. intros [Hge|Hw]; [lia|].
    exfalso. revert Hw. apply full_window_open. lia.
Qed.

Lemma completed_run : run completed_app completed_history.
Proof.
  apply (script_run full_energy full_draws full_converged 46).
  - lia.
  - exact full_converged_0.
  - exact full_converged_small.
  - exact full_draws_valid.
  - exact full_energy_fresh.
  - exact full_energy_held.
  - exact full_converged_next.
  - lia.
Qed.

Lemma completed_all_converged : size (converged_methods (dash completed_app)) = 3%nat.
Proof.
  change (converged_methods (dash completed_app))
    with (list_to_set methods : gset method).
  unfold methods. cbn [list_to_set foldr].
  rewrite !size_union, !size_singleton, size_empty by set_solver.
  reflexivity.
Qed.

Lemma completed_stopped : simulation_stopped (dash completed_app) = true.
Proof.
  change (simulation_stopped (dash completed_app))
    with (size (converged_methods (dash completed_app)) =? 3)%nat.
  rewrite completed_all_converged. reflexivity.
Qed.

(** * No tick without a queued callback *)

Lemma start_no_reschedule (s : dashboard) (u : draws) (o : outcome) :
  start_data_generation s u = Ok o ->
  simulation_stopped s = true \/
  (3 <= size (converged_methods s))%nat \/
  simulation_stopped (after o) = true ->
  rescheduled o = false.
Proof.
  unfold start_data_generation. intros Ho Hobs.
  destruct (simulation_stopped s) eqn:Hs; cbn [orb] in Ho.
  { injection Ho as <-. reflexivity. }
  destruct (Nat.leb_spec 3 (size (converged_methods s))) as [Hge|Hlt].
  { injection Ho as <-. reflexivity. }
  destruct (generate_new_data_point s u) as [[s' mk]|e];
    cbn [mbind result_bind] in Ho; [|discriminate].
  injection Ho as <-. cbn [after rescheduled] in *.
  destruct Hobs as [Hobs|[Hobs|Hobs]]; [discriminate|lia|].
  rewrite Hobs. reflexivity.
Qed.

Lemma button_click_cases (s : dashboard) (button_text : string) :
  button_click s button_text = s \/ button_click s button_text = initial.
Proof.
  unfold button_click.
  destruct (String.eqb button_text "Run Simulation"); [right|left]; reflexivity.
Qed.

(** With no callback queued only the button acts, and it queues none. *)
Lemma steps_idle (a : app) (h : history) (a' : app) (h' : history) :
  steps a h a' h' ->
  pending a = 0%nat ->
  pending a' = 0%nat /\ (dash a' = dash a \/ dash a' = initial).
Proof.
  intros Hsteps Hp. induction Hsteps as [a h|a h a1 h1 a2 h2 _ IH Hstep].
  - split; [assumption|now left].
  - destruct (IH Hp) as [Hp1 Hd1].
    destruct Hstep as [a1 h1 u a2 h2 Hpos _ _ _|a1 h1 text]; [lia|].
    cbn [click pending dash]. split; [assumption|].
    destruct (button_click_cases (dash a1) text) as [-> | ->]; [assumption|].
    now right.
Qed.

(** * The claims *)





(** C2. In every state of a run the stopped flag is true exactly when the
    convergence set has size 3, and once it is true further ticks append
    nothing: they leave the dashboard, hence every series, unchanged. *)
Theorem stopped_iff_all_converged (a : app) (h : history) :
  run a h ->
  (simulation_stopped (dash a) = true <->
     size (converged_methods (dash a)) = 3%nat) /\
  (simulation_stopped (dash a) = true ->
     forall us, ticks (dash a) us = Ok (dash a, []) /\
                Forall (fun u => appended (dash a) u h = Ok h) us).
Proof.
  intros Hrun. destruct (run_invariant a h Hrun) as [Hc Ht Hle Hst].
  split; [apply (cons_stop _ Hc)|].
  intros Hs us. split; [now apply ticks_stopped|].
  apply Forall_forall. intros u _. unfold appended.
  rewrite (consistent_guard _ Hc), Hs. reflexivity.
Qed.

Lemma stopped_iff_all_converged_witness :
  run completed_app completed_history /\
  simulation_stopped (dash completed_app) = true /\
  size (converged_methods (dash completed_app)) = 3%nat /\
  ticks (dash completed_app) [zero_draws; zero_draws]
    = Ok (dash completed_app, []).
Proof.
  pose proof (stopped_iff_all_converged completed_app completed_history
                completed_run) as [Hiff Hfrozen].
  split; [exact completed_run|]. split; [exact completed_stopped|].
  split; [apply Hiff; exact completed_stopped|].
  apply (Hfrozen completed_stopped).
Defined.

(** C3, as amended.  After a method has converged, every tick moves its value
    by no more than its jitter constant (0.001 for normal_vqe and
    vqe_uccsd_hybrid, 0.0005 for vqe_uccsd_hybrid_zne), so that after k
    completed ticks the value is within k times the jitter constant of the
    value it had at the start; k is the advance of the iteration counter.
    The step itself is jitter * (u - 0.5), half the constant at most in exact
    arithmetic; the statement keeps the factor 2 as room for the rounding of
    the floats. *)
Theorem jitter_random_walk (a : app) (h : history) (us : list draws)
    (s' : dashboard) (marked : list method) (m : method) (v0 : R) :
  run a h ->
  ticks (dash a) us = Ok (s', marked) ->
  Forall valid_draws us ->
  m ∈ converged_methods (dash a) ->
  py_last (energy (data_storage (dash a) m)) = Ok v0 ->
  exists v1,
    py_last (energy (data_storage s' m)) = Ok v1 /\
    Rabs (v1 - v0)
      <= IZR (current_iteration s' - current_iteration (dash a)) * jitter m /\
    (0 <= current_iteration s' - current_iteration (dash a)
       <= Z.of_nat (length us))%Z /\
    m ∈ converged_methods s'.
Proof.
  intros _ Ht Hus Hin Hlast.
  destruct (jitter_walk (dash a) us s' marked m v0 Ht Hus Hin Hlast)
    as (v1 & Hlast1 & Hb & Hi & Hin1).
  exists v1. split; [assumption|]. split; [|split; assumption].
  pose proof (jitter_pos m) as Hj.
  assert (Hk : 0 <= IZR (current_iteration s' - current_iteration (dash a)))
    by (apply IZR_le; lia).
  eapply Rle_trans; [exact Hb|]. nra.
Qed.

Lemma jitter_random_walk_witness :
  run (drift_app 5) (drift_history 5) /\
  ticks (dash (drift_app 5)) [drift_draws 5; drift_draws 6; drift_draws 7]
    = Ok (drift_state 8, []) /\
  Forall valid_draws [drift_draws 5; drift_draws 6; drift_draws 7] /\
  normal_vqe ∈ converged_methods (dash (drift_app 5)) /\
  py_last (energy (data_storage (dash (drift_app 5)) normal_vqe)) = Ok (-0.8) /\
  exists v1,
    py_last (energy (data_storage (drift_state 8) normal_vqe)) = Ok v1 /\
    Rabs (v1 - -0.8)
      <= IZR (current_iteration (drift_state 8)
              - current_iteration (dash (drift_app 5)))
         * jitter normal_vqe /\
    (0 <= current_iteration (drift_state 8) - current_iteration (dash (drift_app 5))
       <= Z.of_nat 3)%Z /\
    normal_vqe ∈ converged_methods (drift_state 8).
Proof.
  split; [apply drift_run; lia|].
  split; [exact drift_ticks|]. split; [exact drift_tail_valid|].
  split; [exact drift_normal_converged|].
  split; [exact drift_value_at_convergence|].
  exact (jitter_random_walk (drift_app 5) (drift_history 5) _ (drift_state 8) []
           normal_vqe (-0.8) (drift_run 5 ltac:(lia))
           drift_ticks drift_tail_valid drift_normal_converged
           drift_value_at_convergence).
Defined.

(** C3, as stated, fails.  In the run [drift_app] normal_vqe enters the
    convergence set in the tick of iteration 4 with value -0.8; three ticks
    later, all draws being in [0, 1), its value is -0.8015, which is 0.0015
    away from the value at convergence, more than its jitter constant 0.001. *)
Lemma jitter_band_escaped :
  run (drift_app 5) (drift_history 5) /\
  timer_fires (drift_app 4) (drift_draws 4) = Ok (drift_app 5) /\
  (normal_vqe ∉ converged_methods (dash (drift_app 4))) /\
  normal_vqe ∈ converged_methods (dash (drift_app 5)) /\
  py_last (energy (data_storage (dash (drift_app 5)) normal_vqe)) = Ok (-0.8) /\
  Forall valid_draws [drift_draws 5; drift_draws 6; drift_draws 7] /\
  ticks (dash (drift_app 5)) [drift_draws 5; drift_draws 6; drift_draws 7]
    = Ok (drift_state 8, []) /\
  py_last (energy (data_storage (drift_state 8) normal_vqe)) = Ok (-0.8015) /\
  jitter normal_vqe < Rabs (-0.8015 - -0.8).
Proof.
  split; [apply drift_run; lia|].
  split; [apply drift_timer; lia|].
  split; [cbn; apply not_elem_of_empty|].
  split; [exact drift_normal_converged|].
  split; [exact drift_value_at_convergence|].
  split; [exact drift_tail_valid|].
  split; [exact drift_ticks|].
  split; [exact drift_value_three_ticks_later|].
  cbn [jitter]. rewrite Rabs_left by lra. lra.
Qed.

(** C4. In every state of a run each series has at most 50 entries, as many
    iterations as energies, and its (iteration, energy) pairs are the last 50
    pairs appended since the reset, or all of them when fewer were appended;
    the appended iterations are 0, 1, 2, ... in order. *)
Theorem series_keep_last_50 (a : app) (h : history) :
  run a h ->
  forall m,
    let d := data_storage (dash a) m in
    (length (energy d) <= 50)%nat /\
    length (iterations d) = length (energy d) /\
    combine (iterations d) (energy d) = skipn (length (h m) - 50) (h m) /\
    map fst (h m) = map Z.of_nat (seq 0 (length (h m))).
Proof.
  intros Hrun m d. destruct (run_invariant a h Hrun) as [Hc Ht Hle Hst].
  subst d. split; [|split; [|split]].
  - rewrite (cons_same _ Hc m). apply (cons_cap _ Hc).
  - apply (cons_pairs _ Hc).
  - apply (tr_points _ _ Ht m).
  - apply (tr_iters _ _ Ht m).
Qed.

Lemma series_keep_last_50_witness :
  run completed_app completed_history /\
  (length (energy (data_storage (dash completed_app) normal_vqe)) <= 50)%nat /\
  combine (iterations (data_storage (dash completed_app) normal_vqe))
          (energy (data_storage (dash completed_app) normal_vqe))
  = skipn (length (completed_history normal_vqe) - 50)
          (completed_history normal_vqe).
Proof.
  pose proof (series_keep_last_50 completed_app completed_history completed_run
                normal_vqe) as (Hcap & _ & Hpairs & _).
  split; [exact completed_run|]. split; [exact Hcap|exact Hpairs].
Defined.

(** C5. From any state, the restart action yields iteration counter 0, an
    empty convergence set, a cleared stopped flag and three empty series. *)
Theorem reset_clears (s : dashboard) :
  let s' := button_click s "Run Simulation" in
  current_iteration s' = 0%Z /\
  converged_methods s' = ∅ /\
  simulation_stopped s' = false /\
  forall m, iterations (data_storage s' m) = [] /\
            energy (data_storage s' m) = [].
Proof. cbn. repeat split. Qed.

Lemma fresh_energy_curve (m : method) (i : Z) (u : R) :
  fresh_energy m i u =
  base m - amplitude m * (1 - exp (- IZR i / decay m)) + noise m * u.
Proof. destruct m; reflexivity. Qed.

(** C6. For a method outside the convergence set the sample of a tick is
    base - amplitude * (1 - e^(-i/decay)) + noise * u, with i the current
    iteration, u the draw of that method and the tabulated constants; for
    vqe_uccsd_hybrid at iteration 0 with draw 0 it is exactly -1.0. *)
Theorem fresh_sample_formula (s : dashboard) (u : draws)
    (es : method -> R) (m : method) :
  sample s u = Ok es ->
  (m ∉ converged_methods s) ->
  es m = base m
         - amplitude m * (1 - exp (- IZR (current_iteration s) / decay m))
         + noise m * draw u m /\
  (m = vqe_uccsd_hybrid -> current_iteration s = 0%Z -> draw u m = 0 ->
     es m = -1.0).
Proof.
  intros Hes Hn.
  pose proof (sample_inv s u es Hes m) as Hm. unfold next_energy in Hm.
  destruct (decide (m ∈ converged_methods s)) as [Hin|_]; [contradiction|].
  injection Hm as <-. split; [apply fresh_energy_curve|].
  intros -> Hi Hu. rewrite Hi, Hu. cbn [fresh_energy].
  replace (- 0 / 10) with 0 by lra. rewrite exp_0. lra.
Qed.

Lemma fresh_sample_formula_witness :
  sample initial zero_draws = Ok (fun m => fresh_energy m 0 0) /\
  (vqe_uccsd_hybrid ∉ converged_methods initial) /\
  fresh_energy vqe_uccsd_hybrid 0 0 = -1.0.
Proof.
  assert (Hes : sample initial zero_draws = Ok (fun m => fresh_energy m 0 0)).
  { reflexivity. }
  assert (Hn : vqe_uccsd_hybrid ∉ converged_methods initial).
  { cbn. apply not_elem_of_empty. }
  split; [exact Hes|]. split; [exact Hn|].
  exact (proj2 (fresh_sample_formula initial zero_draws _ vqe_uccsd_hybrid Hes Hn)
           eq_refl eq_refl eq_refl).
Defined.

(** C7. In a run the iteration counter never decreases: a tick started while
    the stopped flag is clear completes and adds exactly 1 (the counter then
    equals the number of samples appended to each of the three series), and
    once the flag is set ticks leave the counter, and the whole dashboard,
    unchanged. *)
Theorem iteration_counter (a : app) (h : history) :
  run a h ->
  (forall m, current_iteration (dash a) = Z.of_nat (length (h m))) /\
  (forall u, exists o,
     start_data_generation (dash a) u = Ok o /\
     (current_iteration (dash a) <= current_iteration (after o))%Z /\
     (simulation_stopped (dash a) = false ->
        current_iteration (after o) = (current_iteration (dash a) + 1)%Z) /\
     (simulation_stopped (dash a) = true -> after o = dash a)) /\
  (simulation_stopped (dash a) = true ->
     forall us, ticks (dash a) us = Ok (dash a, [])).
Proof.
  intros Hrun. destruct (run_invariant a h Hrun) as [Hc Ht Hle Hst].
  split; [apply (tr_count _ _ Ht)|]. split.
  - intros u. destruct (simulation_stopped (dash a)) eqn:Hs.
    + rewrite (start_stopped _ u Hc Hs). eexists. split; [reflexivity|].
      cbn [after]. split; [lia|]. split; [discriminate|reflexivity].
    + rewrite (start_running _ u Hc Hs).
      destruct (consistent_sample _ u Hc) as [es Hes].
      destruct (generate_new_data_point_eq _ u es Hes) as (new & _ & _ & ->).
      cbn [mbind result_bind]. eexists. split; [reflexivity|].
      cbn [after current_iteration]. split; [lia|].
      split; [reflexivity|discriminate].
  - intros Hs us. now apply ticks_stopped.
Qed.

Lemma iteration_counter_witness :
  run first_app first_history /\
  current_iteration (dash first_app)
    = Z.of_nat (length (first_history normal_vqe)) /\
  run completed_app completed_history /\
  ticks (dash completed_app) [zero_draws] = Ok (dash completed_app, []).
Proof.
  split; [exact first_run|].
  split; [apply (iteration_counter first_app first_history first_run)|].
  split; [exact completed_run|].
  apply (iteration_counter completed_app completed_history completed_run).
  exact completed_stopped.
Defined.

(** C8. Ticks only add to the convergence set: over any sequence of ticks the
    set grows, every method is marked at most once, the marked methods are
    exactly those that were outside the set before and are inside after, and
    the check leaves its state untouched for a member, whatever its series
    holds.  The restart action is what empties the set. *)
Theorem converged_set_only_grows (s : dashboard) (us : list draws)
    (s' : dashboard) (marked : list method) :
  ticks s us = Ok (s', marked) ->
  converged_methods s ⊆ converged_methods s' /\
  NoDup marked /\
  (forall m, In m marked <->
     (m ∉ converged_methods s) /\ m ∈ converged_methods s') /\
  (forall st acc m, m ∈ acc.1 -> check_method st acc m = Ok acc) /\
  converged_methods (button_click s' "Run Simulation") = ∅.
Proof.
  intros Ht. destruct (ticks_marks s us s' marked Ht) as (Hsub & Hnd & Hiff).
  split; [assumption|]. split; [assumption|]. split; [assumption|].
  split; [|reflexivity].
  intros st acc m Hin. unfold check_method.
  destruct (decide (m ∈ acc.1)); [reflexivity|contradiction].
Qed.

Lemma converged_set_only_grows_witness :
  ticks (drift_state 4) [drift_draws 4] = Ok (drift_state 5, [normal_vqe]) /\
  converged_methods (drift_state 4) ⊆ converged_methods (drift_state 5) /\
  NoDup [normal_vqe] /\
  (In normal_vqe [normal_vqe] <->
     (normal_vqe ∉ converged_methods (drift_state 4)) /\
     normal_vqe ∈ converged_methods (drift_state 5)).
Proof.
  split; [exact drift_mark_ticks|].
  destruct (converged_set_only_grows (drift_state 4) [drift_draws 4]
              (drift_state 5) [normal_vqe] drift_mark_ticks)
    as (Hsub & Hnd & Hiff & _).
  split; [exact Hsub|]. split; [exact Hnd|]. exact (Hiff normal_vqe).
Defined.

(** C9. No read of the core fails in a run: a converged method has at least 5
    energies, so the last-element read of the converged branch succeeds; the
    maximum and minimum are taken behind the length guard, so the check never
    raises, in whatever state; hence the launch and every timer callback
    return normally. *)
Theorem no_exception_in_run (a : app) (h : history) :
  run a h ->
  (forall m, m ∈ converged_methods (dash a) ->
     (5 <= length (energy (data_storage (dash a) m)))%nat) /\
  (forall m u, m ∈ converged_methods (dash a) ->
     exists e, held_energy m (energy (data_storage (dash a) m)) u = Ok e) /\
  (forall st conv, exists r, check_convergence st conv = Ok r) /\
  (forall u, exists s' marked,
     generate_new_data_point (dash a) u = Ok (s', marked)) /\
  (forall u, exists a', timer_fires a u = Ok a') /\
  (forall u, exists a0, launch u = Ok a0).
Proof.
  intros Hrun. destruct (run_invariant a h Hrun) as [Hc Ht Hle Hst].
  split; [apply (cons_conv _ Hc)|]. split; [|split; [|split; [|split]]].
  - intros m u Hm. unfold held_energy.
    pose proof (cons_conv _ Hc m Hm) as H5.
    destruct (py_last_nonempty (energy (data_storage (dash a) m))) as [prev ->].
    + intros He. rewrite He in H5. cbn in H5. lia.
    + cbn [mbind result_bind]. eauto.
  - intros st conv. destruct (check_convergence_spec st conv) as (new & -> & _).
    eauto.
  - intros u. destruct (consistent_sample _ u Hc) as [es Hes].
    destruct (generate_new_data_point_eq _ u es Hes) as (new & _ & _ & ->).
    eauto.
  - intros u. unfold timer_fires.
    destruct (start_total _ u Hc) as [o ->]. cbn [mbind result_bind]. eauto.
  - intros u. unfold launch.
    destruct (start_total initial u consistent_initial) as [o ->].
    cbn [mbind result_bind]. eauto.
Qed.

Lemma no_exception_in_run_witness :
  run (drift_app 5) (drift_history 5) /\
  (5 <= length (energy (data_storage (dash (drift_app 5)) normal_vqe)))%nat /\
  (forall u, exists a', timer_fires (drift_app 5) u = Ok a').
Proof.
  pose proof (no_exception_in_run (drift_app 5) (drift_history 5)
                (drift_run 5 ltac:(lia)))
    as (Hlen & _ & _ & _ & Hfire & _).
  split; [apply drift_run; lia|].
  split; [apply Hlen, drift_normal_converged|exact Hfire].
Defined.

(** C10. A callback that ends with the stopped flag set queues no further
    callback, so in a run a set flag (or three converged methods) means that
    no callback is queued; the button never queues one.  Hence once no
    callback is queued none ever is again: after a completed run the restart
    action clears the flag and the data, and from then on the dashboard stays
    in its initial state with no tick to come. *)
Theorem no_tick_after_completion (a : app) (h : history) :
  run a h ->
  (simulation_stopped (dash a) = true \/
   size (converged_methods (dash a)) = 3%nat -> pending a = 0%nat) /\
  (forall u o,
     start_data_generation (dash a) u = Ok o ->
     simulation_stopped (after o) = true -> rescheduled o = false) /\
  (forall button_text, pending (click a button_text) = pending a) /\
  (pending a = 0%nat ->
   forall a' h', steps a h a' h' ->
     pending a' = 0%nat /\ (dash a' = dash a \/ dash a' = initial)) /\
  (simulation_stopped (dash a) = true ->
   let a1 := click a "Run Simulation" in
   simulation_stopped (dash a1) = false /\
   dash a1 = initial /\
   pending a1 = 0%nat /\
   forall a' h', steps a1 (reset_history "Run Simulation" h) a' h' ->
     pending a' = 0%nat /\ dash a' = initial).
Proof.
  intros Hrun. destruct (run_invariant a h Hrun) as [Hc Ht Hle Hst].
  assert (Hdone : simulation_stopped (dash a) = true \/
                  size (converged_methods (dash a)) = 3%nat -> pending a = 0%nat).
  { intros [Hs|H3]; [now apply Hst|]. apply Hst, (cons_stop _ Hc), H3. }
  split; [exact Hdone|]. split; [|split; [|split]].
  - intros u o Ho Hs. apply (start_no_reschedule _ u o Ho). auto.
  - reflexivity.
  - intros Hp a' h' Hsteps. exact (steps_idle a h a' h' Hsteps Hp).
  - intros Hs a1. subst a1. cbn [click dash pending].
    split; [reflexivity|]. split; [reflexivity|].
    split; [apply Hdone; now left|].
    intros a' h' Hsteps.
    destruct (steps_idle _ _ _ _ Hsteps) as [Hp' Hd'].
    + cbn [click pending]. apply Hdone. now left.
    + split; [assumption|]. destruct Hd' as [Hd'|Hd']; [|assumption].
      rewrite Hd'. reflexivity.
Qed.

Lemma no_tick_after_completion_witness :
  run completed_app completed_history /\
  simulation_stopped (dash completed_app) = true /\
  pending completed_app = 0%nat /\
  simulation_stopped (dash (click completed_app "Run Simulation")) = false /\
  pending (click completed_app "Run Simulation") = 0%nat.
Proof.
  pose proof (no_tick_after_completion completed_app completed_history completed_run)
    as (Hdone & _ & _ & _ & Hrestart).
  split; [exact completed_run|]. split; [exact completed_stopped|].
  split; [apply Hdone; left; exact completed_stopped|].
  destruct (Hrestart completed_stopped) as (Hflag & _ & Hpend & _).
  split; [exact Hflag|exact Hpend].
Defined.

(** * Further properties of the run controller *)

Lemma map_fst_combine {A B : Type} (l : list A) (l' : list B) :
  length l = length l' -> map fst (combine l l') = l.
Proof.
  revert l'. induction l as [|a l IH]; intros [|b l'] Hlen; cbn in *;
    try discriminate; [reflexivity|].
  f_equal. apply IH. lia.
Qed.

Lemma map_snd_combine {A B : Type} (l : list A) (l' : list B) :
  length l = length l' -> map snd (combine l l') = l'.
Proof.
  revert l'. induction l as [|a l IH]; intros [|b l'] Hlen; cbn in *;
    try discriminate; [reflexivity|].
  f_equal. apply IH. lia.
Qed.

Lemma py_suffix_map {A B : Type} (f : A -> B) (n : nat) (l : list A) :
  py_suffix n (map f l) = map f (py_suffix n l).
Proof.
  destruct n as [|n]; [reflexivity|].
  unfold py_suffix. rewrite length_map. apply skipn_map.
Qed.

(** X1. The iterations a series holds are the last [min 50 n] of 0 .. n-1, where
    n is the iteration counter; in particular the three series hold the same
    iterations and as many energies. *)
Theorem series_iterations_range (a : app) (h : history) :
  run a h ->
  forall m,
    let n := Z.to_nat (current_iteration (dash a)) in
    let d := data_storage (dash a) m in
    (0 <= current_iteration (dash a))%Z /\
    iterations d = map Z.of_nat (seq (n - 50) (Nat.min 50 n)) /\
    length (energy d) = Nat.min 50 n.
Proof.
  intros Hrun m n d. destruct (run_invariant a h Hrun) as [Hc Ht _ _].
  pose proof (tr_count _ _ Ht m) as Hn.
  pose proof (tr_points _ _ Ht m) as Hp.
  pose proof (tr_iters _ _ Ht m) as Hi.
  pose proof (cons_pairs _ Hc m) as Hlen.
  assert (Hn' : n = length (h m)) by (subst n; lia).
  split; [lia|].
  assert (Hits : iterations d = map Z.of_nat (seq (n - 50) (Nat.min 50 n))).
  { subst d. rewrite <- (map_fst_combine _ _ Hlen).
    fold (points (data_storage (dash a) m)). rewrite Hp.
    rewrite <- py_suffix_map, Hi. unfold py_suffix.
    rewrite length_map, length_seq, skipn_map, skipn_seq, <- Hn'.
    f_equal. f_equal; lia. }
  split; [exact Hits|].
  subst d. rewrite <- Hlen, Hits, length_map, length_seq. reflexivity.
Qed.

Lemma series_iterations_range_witness :
  run completed_app completed_history /\
  iterations (data_storage (dash completed_app) vqe_uccsd_hybrid)
  = map Z.of_nat (seq 0 46).
Proof.
  split; [exact completed_run|].
  exact (proj1 (proj2 (series_iterations_range completed_app completed_history
                         completed_run vqe_uccsd_hybrid))).
Defined.

(** X2. No method is in the convergence set before five samples were appended:
    while the iteration counter is below 5 the set is empty and the stopped
    flag is clear. *)
Theorem no_convergence_before_five (a : app) (h : history) :
  run a h ->
  (forall m, m ∈ converged_methods (dash a) ->
     (5 <= current_iteration (dash a))%Z) /\
  ((current_iteration (dash a) < 5)%Z ->
     converged_methods (dash a) = ∅ /\ simulation_stopped (dash a) = false).
Proof.
  intros Hrun. destruct (run_invariant a h Hrun) as [Hc Ht _ _].
  assert (Hfive : forall m, m ∈ converged_methods (dash a) ->
                    (5 <= current_iteration (dash a))%Z).
  { intros m Hm. pose proof (cons_conv _ Hc m Hm) as H5.
    pose proof (tr_points _ _ Ht m) as Hp.
    apply (f_equal (@length _)) in Hp. unfold points in Hp.
    rewrite length_combine, (cons_pairs _ Hc m), Nat.min_id in Hp.
    rewrite py_suffix_length in Hp by lia.
    rewrite (tr_count _ _ Ht m). lia. }
  split; [exact Hfive|]. intros Hlt.
  assert (Hempty : converged_methods (dash a) = ∅).
  { apply set_eq. intros m. split.
    - intros Hm. specialize (Hfive m Hm). lia.
    - intros Hm. exfalso. revert Hm. apply not_elem_of_empty. }
  split; [exact Hempty|].
  destruct (simulation_stopped (dash a)) eqn:Hs; [|reflexivity].
  apply (cons_stop _ Hc) in Hs. rewrite Hempty, size_empty in Hs. lia.
Qed.

Lemma no_convergence_before_five_witness :
  run (drift_app 5) (drift_history 5) /\
  normal_vqe ∈ converged_methods (dash (drift_app 5)) /\
  (5 <= current_iteration (dash (drift_app 5)))%Z.
Proof.
  split; [apply drift_run; lia|]. split; [exact drift_normal_converged|].
  exact (proj1 (no_convergence_before_five (drift_app 5) (drift_history 5)
                  (drift_run 5 ltac:(lia)))
           normal_vqe drift_normal_converged).
Defined.

(** X3. Whatever the three draws, the constructor's first tick succeeds, stores
    one sample per method, marks nothing and queues the next tick. *)
Theorem launch_queues_tick (u : draws) :
  exists a,
    launch u = Ok a /\
    pending a = 1%nat /\
    current_iteration (dash a) = 1%Z /\
    simulation_stopped (dash a) = false /\
    converged_methods (dash a) = ∅ /\
    forall m, data_storage (dash a) m
              = mkSeries [0%Z] [fresh_energy m 0 (draw u m)].
Proof.
  unfold launch.
  rewrite (start_running initial u consistent_initial eq_refl).
  destruct (consistent_sample initial u consistent_initial) as [es Hes].
  destruct (generate_new_data_point_eq initial u es Hes) as (new & _ & Hiff & ->).
  assert (Hnil : new = []).
  { apply nil_of_no_elem. intros m Hm. apply Hiff in Hm as [_ Hw].
    revert Hw. apply window_short. cbn. lia. }
  subst new. cbn [mbind result_bind]. eexists. split; [reflexivity|].
  cbn [dash pending after requeue rescheduled simulation_stopped
       current_iteration converged_methods data_storage initial list_to_set].
  assert (Hsz : (size (∅ ∪ ∅ : gset method) =? 3)%nat = false).
  { rewrite union_empty_r_L, size_empty. reflexivity. }
  rewrite Hsz. cbn [negb]. split; [reflexivity|]. split; [reflexivity|].
  split; [reflexivity|]. split; [apply union_empty_r_L|].
  intros m. pose proof (sample_inv initial u es Hes m) as Hm.
  unfold next_energy in Hm.
  destruct (decide (m ∈ converged_methods initial)) as [Hin|_].
  { exfalso. revert Hin. apply not_elem_of_empty. }
  injection Hm as Hm. cbn [current_iteration initial] in Hm.
  unfold truncated, store, append_point. cbn. rewrite <- Hm. reflexivity.
Qed.

(** * Further properties of the sample generator *)

Lemma exp_decay_unit (d : R) (i : Z) :
  0 < d -> (0 <= i)%Z -> 0 < exp (- IZR i / d) <= 1.
Proof.
  intros Hd Hi. split; [apply exp_pos|].
  rewrite <- exp_0.
  assert (Hle : - IZR i / d <= 0).
  { apply IZR_le in Hi. unfold Rdiv.
    assert (0 < / d) by now apply Rinv_0_lt_compat. nra. }
  destruct Hle as [Hlt | ->]; [left; now apply exp_increasing|right; reflexivity].
Qed.

(** X4. In a run, the sample of a method outside the convergence set lies,
    for draws in [0, 1), within 0.01 of the interval from base - amplitude to
    base + noise; it is therefore inside the initial y-range (-2.0, 0.0) of
    the charts.  (In exact arithmetic it lies strictly inside the interval;
    the 0.01 is room for the rounding of the floats.) *)
Theorem fresh_sample_bounds (a : app) (h : history) (u : draws)
    (es : method -> R) (m : method) :
  run a h ->
  valid_draws u ->
  sample (dash a) u = Ok es ->
  (m ∉ converged_methods (dash a)) ->
  base m - amplitude m - 0.01 < es m < base m + noise m + 0.01 /\
  -2.0 < es m < 0.0.
Proof.
  intros Hrun Hu Hes Hn. destruct (run_invariant a h Hrun) as [_ Ht _ _].
  pose proof (tr_count _ _ Ht m) as Hcount.
  pose proof (sample_inv _ u es Hes m) as Hm. unfold next_energy in Hm.
  destruct (decide (m ∈ converged_methods (dash a))) as [Hin|_]; [contradiction|].
  injection Hm as <-.
  pose proof (valid_draws_unit u m Hu) as [Hlo Hhi].
  pose proof (exp_decay_unit (decay m) (current_iteration (dash a))
                (decay_pos m) ltac:(lia)) as [He0 He1].
  destruct m; cbn [fresh_energy base amplitude noise decay] in *; lra.
Qed.

Lemma fresh_sample_bounds_witness :
  run first_app first_history /\
  valid_draws zero_draws /\
  base normal_vqe - amplitude normal_vqe - 0.01
    < fresh_energy normal_vqe 1 0
    < base normal_vqe + noise normal_vqe + 0.01.
Proof.
  split; [exact first_run|]. split; [exact zero_draws_valid|].
  assert (Hn : normal_vqe ∉ converged_methods (dash first_app))
    by (cbn; apply not_elem_of_empty).
  exact (proj1 (fresh_sample_bounds first_app first_history zero_draws
                  (fun m => fresh_energy m 1 0) normal_vqe
                  first_run zero_draws_valid eq_refl Hn)).
Defined.

(** * The first ten ticks *)

Lemma In_skipn_nth {A : Type} (l : list A) (k : nat) (d : A) :
  (k < length l)%nat -> In (nth k l d) (skipn k l).
Proof.
  revert l. induction k as [|k IH]; intros [|x l] Hk; cbn in *; try lia.
  - now left.
  - apply IH. lia.
Qed.

(** The drop of the two slower curves over four consecutive iterations
    starting at iteration 5 or earlier exceeds the threshold, whatever the
    draws. *)
Lemma slow_gap (m : method) (j : nat) (u1 u2 : R) :
  m <> normal_vqe -> (j <= 5)%nat -> unit_draw u1 -> unit_draw u2 ->
  0.001 <= fresh_energy m (Z.of_nat j) u1 - fresh_energy m (Z.of_nat (j + 4)) u2.
Proof.
  intros Hm Hj [Hu1 Hu1'] [Hu2 Hu2'].
  pose proof (decay_pos m) as Hd.
  pose proof (exp_decay_monotone (decay m) (j + 4) 9 Hd ltac:(lia)) as Hmono.
  change (IZR (Z.of_nat 9)) with 9 in Hmono.
  assert (Hsplit : exp (- IZR (Z.of_nat j) / decay m)
                   = exp (- IZR (Z.of_nat (j + 4)) / decay m) * exp (4 / decay m)).
  { rewrite <- exp_plus. f_equal.
    rewrite Nat2Z.inj_add, plus_IZR. change (IZR (Z.of_nat 4)) with 4.
    field. lra. }
  set (x := exp (- IZR (Z.of_nat (j + 4)) / decay m)) in *.
  set (y := exp (- IZR (Z.of_nat j) / decay m)) in *.
  destruct m; [congruence| |]; cbn [fresh_energy decay] in *; fold x y.
  - assert (Hhalf : exp (Ropp 9 / 10) = exp (Ropp 9 / 20) * exp (Ropp 9 / 20))
      by (rewrite <- exp_plus; f_equal; lra).
    pose proof (exp_ineq1_le (Ropp 9 / 20)) as Hlow.
    pose proof (exp_ineq1_le (4 / 10)) as Hup.
    set (z := exp (4 / 10)) in *. set (w := exp (Ropp 9 / 20)) in *.
    assert (Hx : 0.3025 <= x) by nra.
    assert (Hprod : 0.3025 * 0.4 <= x * (z - 1)) by nra.
    nra.
  - assert (Hhalf : exp (Ropp 9 / 8) = exp (Ropp 9 / 16) * exp (Ropp 9 / 16))
      by (rewrite <- exp_plus; f_equal; lra).
    pose proof (exp_ineq1_le (Ropp 9 / 16)) as Hlow.
    pose proof (exp_ineq1_le (4 / 8)) as Hup.
    set (z := exp (4 / 8)) in *. set (w := exp (Ropp 9 / 16)) in *.
    assert (Hx : 0.19 <= x) by nra.
    assert (Hprod : 0.19 * 0.5 <= x * (z - 1)) by nra.
    nra.
Qed.

(** The histories of the unconverged methods hold fresh samples only. *)
Lemma fresh_pairs_start (s : dashboard) (h h' : history) (u : draws) (o : outcome) :
  consistent s ->
  (forall m, (m ∉ converged_methods s) -> fresh_pairs m (h m)) ->
  valid_draws u ->
  start_data_generation s u = Ok o ->
  appended s u h = Ok h' ->
  forall m, (m ∉ converged_methods (after o)) -> fresh_pairs m (h' m).
Proof.
  intros Hc Hfresh Hu Ho Hh m Hn.
  destruct (start_marks s u o Ho) as (Hsub & _ & _).
  assert (Hn0 : m ∉ converged_methods s) by (intros Hin; apply Hn, Hsub, Hin).
  unfold appended in Hh. rewrite (consistent_guard s Hc) in Hh.
  destruct (simulation_stopped s) eqn:Hs.
  - injection Hh as <-. now apply Hfresh.
  - destruct (sample s u) as [es|e] eqn:Hes;
      cbn [mbind result_bind] in Hh; [|discriminate].
    injection Hh as <-. apply Forall_app. split; [now apply Hfresh|].
    apply List.Forall_cons; [|apply List.Forall_nil].
    exists (draw u m). split; [now apply valid_draws_unit|]. cbn [fst snd].
    pose proof (sample_inv s u es Hes m) as Hm. unfold next_energy in Hm.
    destruct (decide (m ∈ converged_methods s)); [contradiction|].
    now injection Hm as <-.
Qed.

(** A tick that leaves the iteration counter at 10 or below does not mark a
    slower method whose history is fresh. *)
Lemma early_tick (s : dashboard) (h : history) (u : draws) (o : outcome)
    (m : method) :
  consistent s -> tracked s h ->
  m <> normal_vqe ->
  (m ∉ converged_methods s) ->
  fresh_pairs m (h m) ->
  valid_draws u ->
  start_data_generation s u = Ok o ->
  (current_iteration (after o) <= 10)%Z ->
  m ∉ converged_methods (after o).
Proof.
  intros Hc Ht Hm Hn Hfresh Hu Ho Hten.
  destruct (simulation_stopped s) eqn:Hs.
  { rewrite (start_stopped s u Hc Hs) in Ho. injection Ho as <-. exact Hn. }
  rewrite (start_running s u Hc Hs) in Ho.
  destruct (consistent_sample s u Hc) as [es Hes].
  destruct (generate_new_data_point_eq s u es Hes) as (new & _ & Hiff & Hg).
  rewrite Hg in Ho. cbn [mbind result_bind] in Ho. injection Ho as <-.
  cbn [after converged_methods current_iteration] in *.
  intros Hin. apply elem_of_union in Hin as [Hin|Hin]; [|contradiction].
  apply elem_of_list_to_set, list_elem_of_In, Hiff in Hin.
  destruct Hin as [_ Hw]. revert Hw.
  unfold store, append_point. cbn [energy].
  pose proof (tr_count s h Ht m) as Hcount.
  pose proof (tr_iters s h Ht m) as Hiters.
  pose proof (tr_points s h Ht m) as Hpoints.
  set (n := length (h m)) in *.
  assert (Hn9 : (n <= 9)%nat) by lia.
  rewrite py_suffix_short in Hpoints by (fold n; lia).
  assert (Hen : energy (data_storage s m) = map snd (h m)).
  { rewrite <- Hpoints. unfold points. symmetry.
    apply map_snd_combine, (cons_pairs s Hc). }
  rewrite Hen.
  destruct (Nat.lt_ge_cases n 4%nat) as [Hlt|Hge].
  { apply window_short. rewrite length_app, length_map. cbn [length]. fold n. lia. }
  pose proof (sample_inv s u es Hes m) as Hnext. unfold next_energy in Hnext.
  destruct (decide (m ∈ converged_methods s)); [contradiction|].
  injection Hnext as Hnext.
  set (p := nth (n - 4) (h m) (0%Z, 0)).
  assert (Hp : In p (h m)) by (apply nth_In; fold n; lia).
  assert (Hp1 : p.1 = Z.of_nat (n - 4)).
  { pose proof (map_nth fst (h m) (0%Z, 0) (n - 4)) as Hnth.
    fold p in Hnth. rewrite <- Hnth, Hiters.
    change (fst (0%Z, 0)) with (Z.of_nat 0).
    rewrite (map_nth Z.of_nat), seq_nth by lia. reflexivity. }
  unfold fresh_pairs in Hfresh. rewrite List.Forall_forall in Hfresh.
  destruct (Hfresh p Hp) as (u1 & Hu1 & Hp2).
  rewrite Hp1 in Hp2.
  apply (window_gap _ p.2 (es m)).
  - unfold py_suffix. rewrite length_app, length_map. cbn [length]. fold n.
    replace (n + 1 - 5)%nat with (n - 4)%nat by lia.
    rewrite skipn_app. apply in_or_app. left.
    replace p.2 with (nth (n - 4) (map snd (h m)) (snd (0%Z, 0))).
    + apply In_skipn_nth. rewrite length_map. fold n. lia.
    + rewrite (map_nth snd). reflexivity.
  - unfold py_suffix. rewrite length_app, length_map. cbn [length]. fold n.
    rewrite skipn_app. apply in_or_app. right.
    rewrite length_map. fold n.
    replace (n + 1 - 5 - n)%nat with 0%nat by lia. now left.
  - rewrite Hp2, <- Hnext, Hcount.
    replace n with (n - 4 + 4)%nat at 2 by lia.
    apply slow_gap; [assumption|lia|assumption|now apply valid_draws_unit].
Qed.

Lemma start_iteration_le (s : dashboard) (u : draws) (o : outcome) :
  consistent s -> start_data_generation s u = Ok o ->
  (current_iteration s <= current_iteration (after o))%Z.
Proof.
  intros Hc Ho. destruct (simulation_stopped s) eqn:Hs.
  - rewrite (start_stopped s u Hc Hs) in Ho. injection Ho as <-. cbn. lia.
  - rewrite (start_running s u Hc Hs) in Ho.
    destruct (consistent_sample s u Hc) as [es Hes].
    destruct (generate_new_data_point_eq s u es Hes) as (new & _ & _ & Hg).
    rewrite Hg in Ho. cbn [mbind result_bind] in Ho. injection Ho as <-.
    cbn. lia.
Qed.

Lemma run_early (a : app) (h : history) :
  run a h ->
  (forall m, (m ∉ converged_methods (dash a)) -> fresh_pairs m (h m)) /\
  ((current_iteration (dash a) <= 10)%Z ->
   forall m, m <> normal_vqe -> m ∉ converged_methods (dash a)).
Proof.
  induction 1 as [u a h Hu Hl Hh|a h a' h' Hrun [IHf IHe] Hstep].
  - unfold launch in Hl.
    destruct (start_data_generation initial u) as [o|e] eqn:Ho;
      cbn [mbind result_bind] in Hl; [|discriminate].
    injection Hl as <-. cbn [dash].
    assert (Hnil : forall m, (m ∉ converged_methods initial) ->
                     fresh_pairs m (no_history m))
      by (intros m _; apply List.Forall_nil).
    split.
    + exact (fresh_pairs_start initial no_history h u o consistent_initial
               Hnil Hu Ho Hh).
    + intros Hten m Hm.
      apply (early_tick initial no_history u o m consistent_initial
               tracked_initial Hm); try assumption.
      * cbn. apply not_elem_of_empty.
      * apply List.Forall_nil.
  - destruct (run_invariant a h Hrun) as [Hc Ht _ _].
    destruct Hstep as [a h u a' h' Hp Hu Hf Hh|a h text].
    + unfold timer_fires in Hf.
      destruct (start_data_generation (dash a) u) as [o|e] eqn:Ho;
        cbn [mbind result_bind] in Hf; [|discriminate].
      injection Hf as <-. cbn [dash]. split.
      * exact (fresh_pairs_start (dash a) h h' u o Hc IHf Hu Ho Hh).
      * intros Hten m Hm.
        pose proof (start_iteration_le (dash a) u o Hc Ho) as Hle.
        assert (Hn : m ∉ converged_methods (dash a)) by (apply IHe; [lia|exact Hm]).
        exact (early_tick (dash a) h u o m Hc Ht Hm Hn (IHf m Hn) Hu Ho Hten).
    + cbn [click dash]. unfold button_click, reset_history.
      destruct (String.eqb text "Run Simulation").
      * split.
        -- intros m _. apply List.Forall_nil.
        -- intros _ m _. cbn. apply not_elem_of_empty.
      * split; assumption.
Qed.

(** X6. Whatever the draws, vqe_uccsd_hybrid and vqe_uccsd_hybrid_zne are not
    converged while the iteration counter is at most 10: their curves still
    fall by more than noise plus threshold over a window.  So a run never
    completes within its first ten ticks. *)
Theorem no_completion_in_first_ten (a : app) (h : history) :
  run a h ->
  (current_iteration (dash a) <= 10)%Z ->
  (vqe_uccsd_hybrid ∉ converged_methods (dash a)) /\
  (vqe_uccsd_hybrid_zne ∉ converged_methods (dash a)) /\
  (size (converged_methods (dash a)) <= 1)%nat /\
  simulation_stopped (dash a) = false.
Proof.
  intros Hrun Hten. destruct (run_early a h Hrun) as [_ Hearly].
  destruct (run_invariant a h Hrun) as [Hc _ _ _].
  assert (Hh : vqe_uccsd_hybrid ∉ converged_methods (dash a))
    by (apply Hearly; [assumption|discriminate]).
  assert (Hz : vqe_uccsd_hybrid_zne ∉ converged_methods (dash a))
    by (apply Hearly; [assumption|discriminate]).
  assert (Hsize : (size (converged_methods (dash a)) <= 1)%nat).
  { assert (Hsub : converged_methods (dash a) ⊆ {[normal_vqe]}).
    { intros m Hm. apply elem_of_singleton.
      destruct m; [reflexivity|contradiction|contradiction]. }
    apply subseteq_size in Hsub. rewrite size_singleton in Hsub. exact Hsub. }
  split; [exact Hh|]. split; [exact Hz|]. split; [exact Hsize|].
  destruct (simulation_stopped (dash a)) eqn:Hs; [|reflexivity].
  apply (cons_stop _ Hc) in Hs. lia.
Qed.

Lemma no_completion_in_first_ten_witness :
  run (drift_app 8) (drift_history 8) /\
  (current_iteration (dash (drift_app 8)) <= 10)%Z /\
  simulation_stopped (dash (drift_app 8)) = false.
Proof.
  assert (Hten : (current_iteration (dash (drift_app 8)) <= 10)%Z)
    by (cbn; lia).
  split; [apply drift_run; lia|]. split; [exact Hten|].
  apply (no_completion_in_first_ten (drift_app 8) (drift_history 8)
           (drift_run 8 ltac:(lia)) Hten).
Defined.

(** * The chart titles *)

Lemma set_title_twice (c : chart) (t t' : string) :
  set_title (set_title c t) t' = set_title c t'.
Proof. reflexivity. Qed.

Lemma mark_convergence_key (p : panels) (m : method) :
  mark_convergence p (method_key m) =
  match m with
  | normal_vqe =>
      if has_ax (panel1 p)
      then {| panel1 := set_title (panel1 p) normal_converged_title;
              panel2 := panel2 p; panel3 := panel3 p |}
      else p
  | vqe_uccsd_hybrid =>
      if has_ax (panel3 p)
      then {| panel1 := panel1 p; panel2 := panel2 p;
              panel3 := set_title (panel3 p) hybrid_converged_title |}
      else p
  | vqe_uccsd_hybrid_zne => p
  end.
Proof.
  unfold mark_convergence.
  destruct m; cbn [method_key String.eqb Ascii.eqb Bool.eqb andb];
    destruct (has_ax (panel1 p)), (has_ax (panel2 p)), (has_ax (panel3 p));
    reflexivity.
Qed.

Lemma apply_marks_spec (p : panels) (marked : list method) :
  panel1 (apply_marks p marked)
  = (if has_ax (panel1 p) && bool_decide (normal_vqe ∈ marked)
     then set_title (panel1 p) normal_converged_title else panel1 p) /\
  panel2 (apply_marks p marked) = panel2 p /\
  panel3 (apply_marks p marked)
  = (if has_ax (panel3 p) && bool_decide (vqe_uccsd_hybrid ∈ marked)
     then set_title (panel3 p) hybrid_converged_title else panel3 p).
Proof.
  revert p. induction marked as [|m marked IH]; intros p.
  - cbn. rewrite !andb_false_r. auto.
  - unfold apply_marks. cbn [fold_left].
    fold (apply_marks (mark_convergence p (method_key m)) marked).
    destruct (IH (mark_convergence p (method_key m))) as (H1 & H2 & H3).
    rewrite H1, H2, H3, mark_convergence_key. clear IH H1 H2 H3.
    destruct m.
    + rewrite (bool_decide_eq_true_2 (normal_vqe ∈ normal_vqe :: marked))
        by (left).
      rewrite andb_true_r.
      assert (Hb : bool_decide (vqe_uccsd_hybrid ∈ normal_vqe :: marked)
                   = bool_decide (vqe_uccsd_hybrid ∈ marked)).
      { apply bool_decide_ext. rewrite elem_of_cons. intuition discriminate. }
      rewrite Hb.
      destruct (has_ax (panel1 p)) eqn:E1, (has_ax (panel3 p)) eqn:E3;
        cbn [panel1 panel2 panel3 set_title has_ax]; rewrite ?E1, ?E3;
        repeat match goal with
               | |- context [bool_decide ?P] => destruct (bool_decide P)
               end;
        cbn [andb]; auto.
    + rewrite (bool_decide_eq_true_2 (vqe_uccsd_hybrid ∈ vqe_uccsd_hybrid :: marked))
        by (left).
      rewrite andb_true_r.
      assert (Hb : bool_decide (normal_vqe ∈ vqe_uccsd_hybrid :: marked)
                   = bool_decide (normal_vqe ∈ marked)).
      { apply bool_decide_ext. rewrite elem_of_cons. intuition discriminate. }
      rewrite Hb.
      destruct (has_ax (panel1 p)) eqn:E1, (has_ax (panel3 p)) eqn:E3;
        cbn [panel1 panel2 panel3 set_title has_ax]; rewrite ?E1, ?E3;
        repeat match goal with
               | |- context [bool_decide ?P] => destruct (bool_decide P)
               end;
        cbn [andb]; auto.
    + assert (Hb1 : bool_decide (normal_vqe ∈ vqe_uccsd_hybrid_zne :: marked)
                    = bool_decide (normal_vqe ∈ marked)).
      { apply bool_decide_ext. rewrite elem_of_cons. intuition discriminate. }
      assert (Hb2 : bool_decide (vqe_uccsd_hybrid ∈ vqe_uccsd_hybrid_zne :: marked)
                    = bool_decide (vqe_uccsd_hybrid ∈ marked)).
      { apply bool_decide_ext. rewrite elem_of_cons. intuition discriminate. }
      rewrite Hb1, Hb2. auto.
Qed.

Lemma apply_marks_flags (p : panels) (marked : list method) (m : method) :
  has_ax (panel_of (apply_marks p marked) m) = has_ax (panel_of p m) /\
  has_canvas (panel_of (apply_marks p marked) m) = has_canvas (panel_of p m) /\
  exists t, panel_of (apply_marks p marked) m = set_title (panel_of p m) t.
Proof.
  destruct (apply_marks_spec p marked) as (H1 & H2 & H3).
  assert (Hid : forall c, c = set_title c (title c)) by (intros []; reflexivity).
  destruct m; cbn [panel_of].
  - rewrite H1.
    destruct (has_ax (panel1 p) && bool_decide (normal_vqe ∈ marked));
      cbn; eauto.
  - rewrite H2. eauto.
  - rewrite H3.
    destruct (has_ax (panel3 p) && bool_decide (vqe_uccsd_hybrid ∈ marked));
      cbn; eauto.
Qed.

(** X7. The titles after the convergence marks of any sequence of ticks.  The
    chart of normal_vqe (panel 1) is titled when normal_vqe converges.  The
    chart of vqe_uccsd_hybrid (panel 2) is never retitled: the convergence of
    vqe_uccsd_hybrid sets its title on panel 3, the chart of
    vqe_uccsd_hybrid_zne, and the convergence of vqe_uccsd_hybrid_zne sets no
    title at all. *)
Theorem convergence_titles (s : dashboard) (us : list draws)
    (s' : dashboard) (marked : list method) (p : panels) :
  ticks s us = Ok (s', marked) ->
  let newly m :=
    bool_decide (m ∈ converged_methods s' ∖ converged_methods s) in
  panel1 (apply_marks p marked)
  = (if has_ax (panel1 p) && newly normal_vqe
     then set_title (panel1 p) normal_converged_title else panel1 p) /\
  panel2 (apply_marks p marked) = panel2 p /\
  panel3 (apply_marks p marked)
  = (if has_ax (panel3 p) && newly vqe_uccsd_hybrid
     then set_title (panel3 p) hybrid_converged_title else panel3 p).
Proof.
  intros Ht newly. destruct (ticks_marks s us s' marked Ht) as (_ & _ & Hiff).
  assert (Hnew : forall m, newly m = bool_decide (m ∈ marked)).
  { intros m. apply bool_decide_ext.
    rewrite elem_of_difference, list_elem_of_In, Hiff. tauto. }
  rewrite !Hnew. apply apply_marks_spec.
Qed.

Lemma convergence_titles_witness :
  ticks (drift_state 4) [drift_draws 4] = Ok (drift_state 5, [normal_vqe]) /\
  panel1 (apply_marks new_panels [normal_vqe])
  = set_title new_chart normal_converged_title /\
  panel2 (apply_marks new_panels [normal_vqe]) = new_chart.
Proof.
  pose proof (convergence_titles (drift_state 4) [drift_draws 4] (drift_state 5)
                [normal_vqe] new_panels drift_mark_ticks) as (H1 & H2 & _).
  split; [exact drift_mark_ticks|]. split; [|exact H2].
  rewrite H1. cbn [new_panels panel1 new_chart has_ax andb].
  rewrite bool_decide_eq_true_2; [reflexivity|].
  apply elem_of_difference. split.
  - exact drift_normal_converged.
  - cbn. apply not_elem_of_empty.
Defined.

Lemma reset_title_marked (c : chart) (b : bool) (t : string) :
  reset_title (if has_ax c && b then set_title c t else c) = reset_title c.
Proof.
  unfold reset_title. destruct (has_ax c) eqn:E, b; cbn [andb];
    cbn [set_title has_ax has_canvas]; rewrite ?E; reflexivity.
Qed.

Lemma reset_title_ok (c : chart) :
  (has_ax c = true -> has_canvas c = true) -> snd (reset_title c) = true.
Proof.
  intros Hc. unfold reset_title. destruct (has_ax c); [|reflexivity].
  cbn [snd]. now apply Hc.
Qed.

(** X8. When every chart that has axes has its canvas, the restart blanks the
    title of every chart with axes and touches nothing else, whatever marks
    came before. *)
Theorem reset_blanks_titles (p : panels) (marked : list method) :
  (has_ax (panel1 p) = true -> has_canvas (panel1 p) = true) ->
  (has_ax (panel2 p) = true -> has_canvas (panel2 p) = true) ->
  reset_chart_titles (apply_marks p marked) = reset_chart_titles p /\
  forall m,
    panel_of (reset_chart_titles p) m
    = (if has_ax (panel_of p m) then set_title (panel_of p m) ""
       else panel_of p m).
Proof.
  intros Hc1 Hc2. split.
  - destruct (apply_marks_spec p marked) as (H1 & H2 & H3).
    unfold reset_chart_titles.
    rewrite H1, H2, H3, !reset_title_marked.
    pose proof (reset_title_ok (panel1 p) Hc1) as Hok1.
    pose proof (reset_title_ok (panel2 p) Hc2) as Hok2.
    destruct (reset_title (panel1 p)) as [c1 ok1].
    destruct (reset_title (panel2 p)) as [c2 ok2].
    cbn [snd] in Hok1, Hok2. subst ok1 ok2. reflexivity.
  - intros m. unfold reset_chart_titles, reset_title.
    destruct (has_ax (panel1 p)) eqn:E1, (has_ax (panel2 p)) eqn:E2,
             (has_ax (panel3 p)) eqn:E3;
      rewrite ?(Hc1 eq_refl), ?(Hc2 eq_refl); cbn [negb];
      destruct m; cbn [panel_of panel1 panel2 panel3]; rewrite ?E1, ?E2, ?E3;
      reflexivity.
Qed.

Lemma reset_blanks_titles_witness :
  reset_chart_titles (apply_marks new_panels [normal_vqe; vqe_uccsd_hybrid])
  = new_panels.
Proof.
  rewrite (proj1 (reset_blanks_titles new_panels [normal_vqe; vqe_uccsd_hybrid]
                    (fun _ => eq_refl) (fun _ => eq_refl))).
  reflexivity.
Defined.

(** * The chart updates *)

Lemma fold_Zmax_spec (rest : list Z) (acc : Z) :
  (acc <= fold_left Z.max rest acc)%Z /\
  forall y, In y rest -> (y <= fold_left Z.max rest acc)%Z.
Proof.
  revert acc. induction rest as [|x rest IH]; intros acc; cbn.
  - split; [lia|]. intros y [].
  - destruct (IH (Z.max acc x)) as [Hacc Hall]. split; [lia|].
    intros y [<-|Hy]; [lia|now apply Hall].
Qed.

Lemma fit_xlim_spec (its : list Z) (old : Z * Z) (i : Z) :
  In i its ->
  fst (fit_xlim its old) = 0%Z /\
  (i + 5 <= snd (fit_xlim its old))%Z /\
  (50 <= snd (fit_xlim its old))%Z.
Proof.
  destruct its as [|x rest]; [intros []|]. intros Hi. cbn [fit_xlim fst snd].
  destruct (fold_Zmax_spec rest x) as [Hacc Hall].
  split; [reflexivity|]. split; [|lia].
  destruct Hi as [<-|Hi]; [lia|]. specialize (Hall i Hi). lia.
Qed.

Lemma py_max2_floor (x : R) : 0.1 <= py_max2 0.1 x.
Proof. unfold py_max2. destruct (Rlt_dec 0.1 x); lra. Qed.

Lemma fit_ylim_spec (energies : list R) (old : R * R) (e : R) :
  In e energies ->
  fst (fit_ylim energies old) + 0.1 <= e <= snd (fit_ylim energies old) - 0.1.
Proof.
  intros He.
  assert (Hne : energies <> []) by (intros ->; destruct He).
  destruct (py_min_spec energies Hne) as (lo & Hlo & _ & Hmin).
  destruct (py_max_spec energies Hne) as (hi & Hhi & _ & Hmax).
  unfold fit_ylim. rewrite Hlo, Hhi. cbn [fst snd].
  pose proof (py_max2_floor ((hi - lo) * 0.1)) as Hm.
  specialize (Hmin e He). specialize (Hmax e He). lra.
Qed.

Lemma fit_ylim_empty (old : R * R) : fit_ylim [] old = old.
Proof. reflexivity. Qed.

Lemma update_charts_built (st : method -> series) (p : panels) :
  (forall m, built (panel_of p m)) ->
  forall m, panel_of (update_charts st p) m
            = fst (update_panel (panel_of p m) (st m)).
Proof.
  intros Hb m.
  destruct (Hb normal_vqe) as [Ha1 Hc1].
  destruct (Hb vqe_uccsd_hybrid) as [Ha2 Hc2].
  destruct (Hb vqe_uccsd_hybrid_zne) as [Ha3 Hc3].
  cbn [panel_of] in *.
  unfold update_charts, update_panel.
  rewrite Ha1, Ha2, Ha3, Hc1, Hc2. cbn [negb].
  destruct m; cbn [panel_of panel1 panel2 panel3 fst];
    rewrite ?Ha1, ?Ha2, ?Ha3, ?Hc1, ?Hc2, ?Hc3; reflexivity.
Qed.

(** X9. With the three charts built, an update gives every chart the series of
    its own method, keeps its title, and chooses limits that enclose the
    data: every energy lies more than 0.09 inside the y-limits (the margin of
    the code is 0.1 or more, up to the rounding of the floats), and the
    x-limits start at 0 and end at 50 or more, at least 5 beyond every
    iteration. *)
Theorem charts_enclose_data (st : method -> series) (p : panels) :
  (forall m, has_ax (panel_of p m) = true /\ has_canvas (panel_of p m) = true) ->
  forall m,
    let c := panel_of (update_charts st p) m in
    line_data c = (iterations (st m), energy (st m)) /\
    title c = title (panel_of p m) /\
    (forall e, In e (energy (st m)) ->
       fst (ylim c) + 0.09 < e < snd (ylim c) - 0.09) /\
    (forall i, In i (iterations (st m)) ->
       fst (xlim c) = 0%Z /\ (i + 5 <= snd (xlim c))%Z /\ (50 <= snd (xlim c))%Z).
Proof.
  intros Hb m c. subst c. rewrite (update_charts_built st p Hb m).
  destruct (Hb m) as [Ha _]. unfold update_panel. rewrite Ha.
  cbn [fst line_data title xlim ylim].
  split; [reflexivity|]. split; [reflexivity|]. split.
  - intros e He.
    pose proof (fit_ylim_spec (energy (st m)) (ylim (panel_of p m)) e He). lra.
  - intros i Hi. now apply fit_xlim_spec.
Qed.

Lemma charts_enclose_data_witness :
  (forall m, has_ax (panel_of new_panels m) = true /\
             has_canvas (panel_of new_panels m) = true) /\
  (45 + 5 <= snd (xlim (panel_of (update_charts (data_storage (dash completed_app))
                                    new_panels) normal_vqe)))%Z /\
  fst (ylim (panel_of (update_charts (data_storage (dash completed_app))
                         new_panels) normal_vqe)) + 0.09
    < full_energy normal_vqe 45
    < snd (ylim (panel_of (update_charts (data_storage (dash completed_app))
                             new_panels) normal_vqe)) - 0.09.
Proof.
  assert (Hb : forall m, has_ax (panel_of new_panels m) = true /\
                         has_canvas (panel_of new_panels m) = true)
    by (intros []; split; reflexivity).
  split; [exact Hb|].
  pose proof (charts_enclose_data (data_storage (dash completed_app)) new_panels
                Hb normal_vqe) as (_ & _ & Hy & Hx).
  split.
  - apply (Hx 45%Z).
    apply in_map_iff. exists 45%nat. split; [reflexivity|]. apply in_seq. lia.
  - apply (Hy (full_energy normal_vqe 45)).
    apply in_map_iff. exists 45%nat. split; [reflexivity|]. apply in_seq. lia.
Defined.

(** X10. A chart without axes is skipped by the update.  A chart with axes but
    without canvas is given its data, and the failure of its redraw ends the
    update: the charts after it keep their old state. *)
Theorem chart_failure_blocks_later (st : method -> series) (p : panels) :
  (has_ax (panel1 p) = false ->
     panel1 (update_charts st p) = panel1 p) /\
  (has_ax (panel1 p) = true -> has_canvas (panel1 p) = false ->
     line_data (panel1 (update_charts st p))
     = (iterations (st normal_vqe), energy (st normal_vqe)) /\
     panel2 (update_charts st p) = panel2 p /\
     panel3 (update_charts st p) = panel3 p) /\
  (built (panel1 p) -> has_ax (panel2 p) = true -> has_canvas (panel2 p) = false ->
     line_data (panel2 (update_charts st p))
     = (iterations (st vqe_uccsd_hybrid), energy (st vqe_uccsd_hybrid)) /\
     panel3 (update_charts st p) = panel3 p).
Proof.
  unfold update_charts, update_panel. split; [|split].
  - intros Ha. rewrite Ha. cbn [negb].
    destruct (has_ax (panel2 p)), (has_canvas (panel2 p)),
             (has_ax (panel3 p)); reflexivity.
  - intros Ha Hc. rewrite Ha, Hc. cbn [negb panel1 panel2 panel3 line_data].
    auto.
  - intros [Ha1 Hc1] Ha Hc. rewrite Ha1, Hc1, Ha, Hc.
    cbn [negb panel1 panel2 panel3 line_data]. auto.
Qed.

Lemma chart_failure_blocks_later_witness :
  has_ax broken_chart = true /\ has_canvas broken_chart = false /\
  panel2 (update_charts (data_storage (dash first_app))
            (mkPanels broken_chart new_chart new_chart)) = new_chart.
Proof.
  split; [reflexivity|]. split; [reflexivity|].
  exact (proj1 (proj2 (proj1 (proj2
           (chart_failure_blocks_later (data_storage (dash first_app))
              (mkPanels broken_chart new_chart new_chart))) eq_refl eq_refl))).
Defined.

(** * The scatter markers *)

Lemma nth_error_py_step_from {A : Type} (n k : nat) (l : list A) (j : nat) :
  (0 < n)%nat ->
  nth_error (py_step_from n k l) j = nth_error l (k + j * n).
Proof.
  intros Hn. revert k j. induction l as [|x t IH]; intros k j.
  - cbn. destruct j, (k + _)%nat; reflexivity.
  - destruct k as [|k']; cbn [py_step_from].
    + destruct j as [|j']; [reflexivity|].
      cbn [nth_error]. rewrite IH.
      replace (0 + S j' * n)%nat with (S (n - 1 + j' * n)) by lia.
      reflexivity.
    + rewrite IH. reflexivity.
Qed.

Lemma nth_error_combine {A B : Type} (l : list A) (l' : list B) (k : nat) :
  nth_error (combine l l') k =
  match nth_error l k, nth_error l' k with
  | Some x, Some y => Some (x, y)
  | _, _ => None
  end.
Proof.
  revert l' k. induction l as [|a l IH]; intros [|b l'] [|k]; cbn;
    try reflexivity.
  - destruct (nth_error l k); reflexivity.
  - apply IH.
Qed.

(** X11. The scatter markers of a series with as many iterations as energies: with
    five points or more they are the points at positions 0, 5, 10, ... of the
    series, with fewer they are all its points. *)
Theorem scatter_every_fifth (d : series) :
  length (iterations d) = length (energy d) ->
  ((5 <= length (energy d))%nat ->
     forall k, nth_error (scatter_points d) k
               = nth_error (combine (iterations d) (energy d)) (5 * k)) /\
  ((length (energy d) < 5)%nat ->
     scatter_points d = combine (iterations d) (energy d)).
Proof.
  intros Hlen. unfold scatter_points. rewrite Hlen. split.
  - intros H5 k.
    destruct (Nat.leb_spec 5 (length (energy d))) as [_|Hbad]; [|lia].
    rewrite !nth_error_combine. unfold py_step.
    rewrite !nth_error_py_step_from by lia.
    replace (0 + k * 5)%nat with (5 * k)%nat by lia. reflexivity.
  - intros H5.
    destruct (Nat.leb_spec 5 (length (energy d))) as [Hbad|_]; [lia|].
    reflexivity.
Qed.

Lemma scatter_every_fifth_witness :
  length (iterations (data_storage (dash completed_app) normal_vqe))
  = length (energy (data_storage (dash completed_app) normal_vqe)) /\
  nth_error (scatter_points (data_storage (dash completed_app) normal_vqe)) 9
  = Some (45%Z, full_energy normal_vqe 45).
Proof.
  assert (Hlen : length (iterations (data_storage (dash completed_app) normal_vqe))
                 = length (energy (data_storage (dash completed_app) normal_vqe)))
    by reflexivity.
  split; [exact Hlen|].
  rewrite (proj1 (scatter_every_fifth _ Hlen)).
  - reflexivity.
  - cbn [completed_app script_app dash script_state data_storage energy].
    rewrite length_map, length_seq. lia.
Defined.

(** * The run that never converges, and what the charts draw *)

Lemma alt_draws_valid (k : nat) : (k < 50)%nat -> valid_draws (alt_draws k).
Proof.
  intros _. unfold valid_draws, alt_draws. cbn [u_normal u_hybrid u_zne].
  repeat split; apply alt_unit.
Qed.

Lemma alt_window_open (m : method) (k : nat) :
  ~ window_converged (map (alt_energy m) (seq 0 (S k))).
Proof.
  destruct (Nat.lt_ge_cases k 4%nat) as [Hlt|Hge].
  - apply window_short. rewrite length_map, length_seq. lia.
  - apply window_alternating; [assumption|].
    intros i _ He. unfold alt_energy.
    rewrite (alt_even i He), (alt_after_even i He). apply fresh_energy_gap.
Qed.

Lemma steady_run : run steady_app steady_history.
Proof.
  apply (script_run alt_energy alt_draws (fun _ => ∅) 50).
  - lia.
  - reflexivity.
  - intros k _. rewrite size_empty. lia.
  - exact alt_draws_valid.
  - intros k m _ _. destruct m; reflexivity.
  - intros k m _ Hin. exfalso. revert Hin. apply not_elem_of_empty.
  - intros k m _. split.
    + intros Hin. exfalso. revert Hin. apply not_elem_of_empty.
    + intros [Hin|Hw].
      * exfalso. revert Hin. apply not_elem_of_empty.
      * exfalso. revert Hw. apply alt_window_open.
  - lia.
Qed.

Lemma run_series_length (a : app) (h : history) (m : method) :
  run a h ->
  length (iterations (data_storage (dash a) m))
  = Nat.min 50 (Z.to_nat (current_iteration (dash a))) /\
  length (energy (data_storage (dash a) m))
  = Nat.min 50 (Z.to_nat (current_iteration (dash a))).
Proof.
  intros Hrun. destruct (run_invariant a h Hrun) as [Hc Ht _ _].
  pose proof (tr_points _ _ Ht m) as Hp.
  apply (f_equal (@length _)) in Hp. unfold points in Hp.
  rewrite length_combine, (cons_pairs _ Hc m), Nat.min_id in Hp.
  rewrite py_suffix_length in Hp by lia.
  rewrite (cons_pairs _ Hc m), Hp, (tr_count _ _ Ht m), Nat2Z.id.
  split; reflexivity.
Qed.

Lemma truncated_suffix (st : method -> series) (m : method) :
  (forall m, length (iterations (st m)) = length (energy (st m))) ->
  (forall m, length (energy (st m)) = length (energy (st normal_vqe))) ->
  iterations (truncated st m) = py_suffix 50 (iterations (st m)) /\
  energy (truncated st m) = py_suffix 50 (energy (st m)).
Proof.
  intros Hp Hsame. unfold truncated.
  destruct (Nat.ltb_spec 50 (length (iterations (st normal_vqe)))) as [Hlt|Hge].
  - split; reflexivity.
  - rewrite Hp in Hge. rewrite <- (Hsame m) in Hge.
    split; symmetry; apply py_suffix_short; rewrite ?Hp; exact Hge.
Qed.

(** X12. In a tick the charts draw the series before they are truncated: with n
    the iteration counter before the tick, every built chart draws
    min(50, n) + 1 points, and the series the tick leaves are the last 50 of
    the points drawn.  From the 51st tick of a run on, every chart shows 51
    points although the series are capped at 50. *)
Theorem charts_draw_untruncated (a : app) (h : history) (u : draws) (p : panels) :
  run a h ->
  (forall m, has_ax (panel_of p m) = true /\ has_canvas (panel_of p m) = true) ->
  exists q s' marked,
    generate_charts (dash a) u p = Ok q /\
    generate_new_data_point (dash a) u = Ok (s', marked) /\
    forall m,
      let n := Z.to_nat (current_iteration (dash a)) in
      let drawn := line_data (panel_of q m) in
      length (fst drawn) = S (Nat.min 50 n) /\
      length (snd drawn) = S (Nat.min 50 n) /\
      iterations (data_storage s' m) = py_suffix 50 (fst drawn) /\
      energy (data_storage s' m) = py_suffix 50 (snd drawn) /\
      ((50 <= n)%nat ->
         length (fst drawn) = 51%nat /\
         length (iterations (data_storage s' m)) = 50%nat).
Proof.
  intros Hrun Hb. destruct (run_invariant a h Hrun) as [Hc Ht _ _].
  destruct (consistent_sample (dash a) u Hc) as [es Hes].
  destruct (generate_new_data_point_eq (dash a) u es Hes) as (new & _ & _ & Hg).
  set (st := store (data_storage (dash a)) (current_iteration (dash a)) es) in *.
  destruct (check_convergence_spec st (converged_methods (dash a)))
    as (new' & Hcheck & _).
  eexists _, _, _. split; [|split; [exact Hg|]].
  { unfold generate_charts. rewrite Hes. cbn [mbind result_bind]. fold st.
    rewrite Hcheck. cbn [mbind result_bind]. reflexivity. }
  intros m n drawn.
  assert (Hb' : forall m, built (panel_of (apply_marks p new') m)).
  { intros m'. destruct (apply_marks_flags p new' m') as (Hax & Hcv & _).
    destruct (Hb m') as [Ha Hv]. unfold built. rewrite Hax, Hcv. now split. }
  assert (Hdrawn : drawn = (iterations (st m), energy (st m))).
  { subst drawn. rewrite (update_charts_built st _ Hb' m).
    destruct (Hb' m) as [Ha _]. unfold update_panel. rewrite Ha. reflexivity. }
  rewrite Hdrawn. cbn [fst snd data_storage].
  destruct (run_series_length a h m Hrun) as [Hli Hle]. fold n in Hli, Hle.
  assert (Hp : forall m, length (iterations (st m)) = length (energy (st m))).
  { intros m'. unfold st, store, append_point. cbn.
    rewrite !length_app, (cons_pairs _ Hc). reflexivity. }
  assert (Hsame : forall m, length (energy (st m)) = length (energy (st normal_vqe))).
  { intros m'. unfold st, store, append_point. cbn.
    rewrite !length_app, (cons_same _ Hc m'). reflexivity. }
  destruct (truncated_suffix st m Hp Hsame) as [Hti Hte].
  assert (Hlen : length (iterations (st m)) = S (Nat.min 50 n)).
  { unfold st, store, append_point. cbn [iterations].
    rewrite length_app, Hli. cbn [length]. lia. }
  split; [exact Hlen|]. split; [rewrite <- Hp; exact Hlen|].
  split; [exact Hti|]. split; [exact Hte|].
  intros Hn. rewrite Hti, py_suffix_length, Hlen by lia. lia.
Qed.

Lemma charts_draw_untruncated_witness :
  run steady_app steady_history /\
  exists q s' marked,
    generate_charts (dash steady_app) (alt_draws 50) new_panels = Ok q /\
    generate_new_data_point (dash steady_app) (alt_draws 50) = Ok (s', marked) /\
    length (fst (line_data (panel_of q vqe_uccsd_hybrid))) = 51%nat /\
    length (iterations (data_storage s' vqe_uccsd_hybrid)) = 50%nat.
Proof.
  split; [exact steady_run|].
  assert (Hb : forall m, has_ax (panel_of new_panels m) = true /\
                         has_canvas (panel_of new_panels m) = true)
    by (intros []; split; reflexivity).
  destruct (charts_draw_untruncated steady_app steady_history (alt_draws 50)
              new_panels steady_run Hb) as (q & s' & marked & Hq & Hs & Hall).
  exists q, s', marked. split; [exact Hq|]. split; [exact Hs|].
  destruct (Hall vqe_uccsd_hybrid) as (_ & _ & _ & _ & H51).
  apply H51. cbn. lia.
Defined.

(** * Restart while a tick is queued *)

(** X13. When the button is pressed while a tick is queued, the next timer
    callback does exactly what the first tick of the constructor does: it
    starts a new run from iteration 0 and keeps the timer alive. *)
Theorem restart_midrun_relaunches (a : app) (u : draws) :
  pending a = 1%nat ->
  timer_fires (click a "Run Simulation") u = launch u /\
  exists a', launch u = Ok a' /\ pending a' = 1%nat /\
             current_iteration (dash a') = 1%Z.
Proof.
  intros Hp. split.
  - unfold timer_fires, launch, click. cbn [dash pending button_click String.eqb
      Ascii.eqb Bool.eqb]. rewrite Hp.
    change {| data_storage := fun _ => mkSeries [] [];
              current_iteration := 0%Z;
              simulation_stopped := false;
              converged_methods := ∅ |} with initial.
    destruct (start_data_generation initial u) as [o|e]; reflexivity.
  - unfold launch.
    rewrite (start_running initial u consistent_initial eq_refl).
    destruct (consistent_sample initial u consistent_initial) as [es Hes].
    destruct (generate_new_data_point_eq initial u es Hes) as (new & _ & Hiff & ->).
    assert (Hnil : new = []).
    { apply nil_of_no_elem. intros m Hm. apply Hiff in Hm as [_ Hw].
      revert Hw. apply window_short. cbn. lia. }
    subst new. cbn [mbind result_bind]. eexists. split; [reflexivity|].
    cbn [dash pending after requeue rescheduled simulation_stopped
         current_iteration converged_methods initial list_to_set].
    assert (Hsz : (size (∅ ∪ ∅ : gset method) =? 3)%nat = false).
    { rewrite union_empty_r_L, size_empty. reflexivity. }
    rewrite Hsz. split; reflexivity.
Qed.

Lemma restart_midrun_relaunches_witness :
  pending first_app = 1%nat /\
  timer_fires (click first_app "Run Simulation") zero_draws = Ok first_app.
Proof.
  split; [reflexivity|].
  rewrite (proj1 (restart_midrun_relaunches first_app zero_draws eq_refl)).
  exact launch_zero.
Defined.
